(** * TimeStitch: channel resolution, video listing and transcript search

    A shallow embedding of the search pipeline of TimeStitch, a tool that
    searches the transcripts of a YouTube channel's videos for a keyword.
    The repository holds several near-duplicate implementations:
      - [src/api/app/services/youtube.py] and [src/backend/app/services/youtube.py]
        ([YouTubeService], used by the FastAPI routers);
      - [src/api/search.py] (a self-contained FastAPI entry point);
      - [src/app.py] (the Streamlit application, with retries and a date window);
      - [src/youtube-transcript-searcher/app.py] (an older Gradio version).

    Python strings are modelled as [string] (ASCII characters); [str.lower]
    is modelled on ASCII letters.  Python [int]s are [Z].  Dicts read with
    [.get] become records with [option] fields.  Raised exceptions are an
    explicit [py] outcome.  Calls to the YouTube Data API and to the
    transcript API are oracles: functions of the call number and of the
    request, so that two calls with the same arguments may answer differently. *)

From Stdlib Require Import String Ascii List ZArith Bool Lia.
Import ListNotations.
Open Scope string_scope.

(** ** Python strings *)

Module PyStr.

(** [c.lower()] on one character (ASCII). *)
Definition lower_char (c : ascii) : ascii :=
  let n := nat_of_ascii c in
  if (Nat.leb 65 n) && (Nat.leb n 90) then ascii_of_nat (n + 32)%nat else c.

(** [s.lower()] *)
Fixpoint lower (s : string) : string :=
  match s with
  | EmptyString => EmptyString
  | String c s' => String (lower_char c) (lower s')
  end.

(** [needle] is a prefix of [hay]. *)
Fixpoint starts_with (needle hay : string) : bool :=
  match needle, hay with
  | EmptyString, _ => true
  | String c n', String d h' => Ascii.eqb c d && starts_with n' h'
  | String _ _, EmptyString => false
  end.

(** [needle in hay]: substring test; the empty string is in every string. *)
Fixpoint contains (needle hay : string) : bool :=
  starts_with needle hay ||
  match hay with
  | EmptyString => false
  | String _ h' => contains needle h'
  end.

(** Truthiness of a string: [bool(s)]. *)
Definition truthy (s : string) : bool :=
  match s with EmptyString => false | _ => true end.

(** Truthiness of an optional string ([None] and [""] are falsy). *)
Definition truthy_opt (s : option string) : bool :=
  match s with Some s' => truthy s' | None => false end.

(** [s.replace(old, new)] for a one-character [old]. *)
Fixpoint replace_char (old : ascii) (new s : string) : string :=
  match s with
  | EmptyString => EmptyString
  | String c s' =>
      if Ascii.eqb c old then new ++ replace_char old new s'
      else String c (replace_char old new s')
  end.

End PyStr.

(** ** Python lists *)

(** [l[:n]] for a Python [int] [n]: a negative bound counts from the end. *)
Definition py_slice_to {A} (l : list A) (n : Z) : list A :=
  if (0 <=? n)%Z then firstn (Z.to_nat n) l
  else firstn (Z.to_nat (Z.of_nat (length l) + n)) l.

(** ** Outcomes of Python code: a value or a raised exception *)

Inductive exn :=
  | ValueError (msg : string)
  | TypeError
  | AttributeError
  | KeyError
  | HttpError
  | YouTubeChannelError (msg : string)
  | OtherError.

Inductive py (A : Type) :=
  | Ret (a : A)
  | Raise (e : exn).
Arguments Ret {A} a.
Arguments Raise {A} e.

(** ** Transcripts and the Keyword Matcher *)

(** A transcript segment [{'text': ..., 'start': ...}]; [start] is a float in
    seconds that the matcher only copies, kept here as a [Z]. *)
Record segment := mk_segment { seg_text : string; seg_start : Z }.

(** A match dict [{"start", "text", "context_before", "context_after"}]. *)
Record match_result := mk_match {
  m_start : Z;
  m_text : string;
  m_context_before : string;
  m_context_after : string
}.

Definition seg_default : segment := mk_segment "" 0.

Section Matcher.

Variable transcript : list segment.
Variable keyword_lower : string.

(** The body of [for i, segment in enumerate(transcript)]; the indexes
    [transcript[i-1]] and [transcript[i+1]] are guarded by [i > 0] and
    [i < len(transcript) - 1], so they are in range. *)
Fixpoint search_loop (i : nat) (rest : list segment) (matches : list match_result)
  : list match_result :=
  match rest with
  | [] => matches
  | segment :: rest' =>
      let matches' :=
        if PyStr.contains keyword_lower (PyStr.lower (seg_text segment)) then
          (matches ++ [mk_match (seg_start segment) (seg_text segment)
                        (if Nat.ltb 0 i then seg_text (nth (i - 1) transcript seg_default) else "")
                        (if Nat.ltb i (List.length transcript - 1)
                         then seg_text (nth (i + 1) transcript seg_default) else "")])%list
        else matches in
      search_loop (S i) rest' matches'
  end.

End Matcher.

(** [YouTubeService.search_in_transcript] (src/api/app/services/youtube.py
    lines 116-127; src/backend/app/services/youtube.py lines 104-115 and
    src/app.py [search_in_transcript] are the same code). *)
Definition search_in_transcript (transcript : list segment) (keyword : string)
  : list match_result :=
  let keyword_lower := PyStr.lower keyword in
  search_loop transcript keyword_lower 0 transcript [].

(** [search_in_transcript] of src/youtube-transcript-searcher/app.py
    (lines 260-288): early return on an empty transcript or keyword, then the
    segments whose text contains the escaped keyword, ignoring case. *)
Definition search_in_transcript_gradio (transcript : list segment) (keyword : string)
  : list segment :=
  if negb (match transcript with [] => false | _ => true end) || negb (PyStr.truthy keyword)
  then []
  else filter (fun seg => PyStr.contains (PyStr.lower keyword) (PyStr.lower (seg_text seg)))
         transcript.

(** The match the spec describes for the segment at position [i]: its start
    and text, the text of the segment before it ([""] at position 0) and the
    text of the segment after it ([""] at the last position). *)
Definition spec_match_at (transcript : list segment) (i : nat) : match_result :=
  let seg := nth i transcript seg_default in
  mk_match (seg_start seg) (seg_text seg)
    (match i with O => "" | S j => seg_text (nth j transcript seg_default) end)
    (if Nat.eqb (S i) (List.length transcript) then ""
     else seg_text (nth (S i) transcript seg_default)).

(** The positions of the segments whose lowered text contains the lowered keyword. *)
Definition matching_positions (transcript : list segment) (keyword : string) : list nat :=
  filter (fun i => PyStr.contains (PyStr.lower keyword)
                     (PyStr.lower (seg_text (nth i transcript seg_default))))
    (seq 0 (List.length transcript)).

(** ** Channel Resolver *)

Module Resolver.

Definition in_range (lo hi : nat) (c : ascii) : bool :=
  Nat.leb lo (nat_of_ascii c) && Nat.leb (nat_of_ascii c) hi.

(** [a-zA-Z0-9] *)
Definition is_alnum (c : ascii) : bool :=
  in_range 97 122 c || in_range 65 90 c || in_range 48 57 c.

(** [a-zA-Z0-9_-]: the characters of a channel ID after [UC]. *)
Definition url_safe (c : ascii) : bool :=
  is_alnum c || Ascii.eqb c "_" || Ascii.eqb c "-".

(** [a-zA-Z0-9_.-]: the characters of a handle or vanity name. *)
Definition handle_char (c : ascii) : bool :=
  is_alnum c || Ascii.eqb c "_" || Ascii.eqb c "." || Ascii.eqb c "-".

Fixpoint all_chars (p : ascii -> bool) (s : string) : bool :=
  match s with
  | EmptyString => true
  | String c s' => p c && all_chars p s'
  end.

Fixpoint drop (n : nat) (s : string) : string :=
  match n, s with
  | O, _ => s
  | S _, EmptyString => EmptyString
  | S n', String _ s' => drop n' s'
  end.

(** [[a-zA-Z0-9_-]{n}] at the start of [s]. *)
Fixpoint take_url (n : nat) (s : string) : option string :=
  match n, s with
  | O, _ => Some EmptyString
  | S n', String c s' => if url_safe c then option_map (String c) (take_url n' s') else None
  | S _, EmptyString => None
  end.

(** [[a-zA-Z0-9_.-]+] at the start of [s], greedy. *)
Fixpoint take_handle (s : string) : string :=
  match s with
  | String c s' => if handle_char c then String c (take_handle s') else EmptyString
  | EmptyString => EmptyString
  end.

Definition nonempty_handle (s : string) : option string :=
  let h := take_handle s in if PyStr.truthy h then Some h else None.

(** [[a-zA-Z0-9_-]{n}$] on the rest of the string: Python's [$] (without
    MULTILINE) matches at the end or before a final newline. *)
Fixpoint id_tail (n : nat) (s : string) : bool :=
  match n, s with
  | O, EmptyString => true
  | O, String c EmptyString => Ascii.eqb c "010"
  | O, String _ (String _ _) => false
  | S n', String c s' => url_safe c && id_tail n' s'
  | S _, EmptyString => false
  end.

(** [re.match(r"^UC[a-zA-Z0-9_-]{22}$", s)] *)
Definition direct_id_match (s : string) : bool :=
  match s with
  | String c1 (String c2 rest) => Ascii.eqb c1 "U" && Ascii.eqb c2 "C" && id_tail 22 rest
  | _ => false
  end.

(** [re.search(pattern, s).group(1)]: the pattern is tried at each position
    from the left; [here] gives the group of a match starting at the
    current position, if any. *)
Fixpoint re_search (here : string -> option string) (s : string) : option string :=
  match here s with
  | Some g => Some g
  | None =>
      match s with
      | EmptyString => None
      | String _ s' => re_search here s'
      end
  end.

(** [youtube\.com/channel/(UC[a-zA-Z0-9_-]{22})] *)
Definition channel_url_here (s : string) : option string :=
  if PyStr.starts_with "youtube.com/channel/UC" s
  then option_map (fun w => "UC" ++ w) (take_url 22 (drop 22 s))
  else None.

(** [(?:youtube\.com/)?@([a-zA-Z0-9_.-]+)]: the optional prefix is tried first. *)
Definition handle_here_opt_prefix (s : string) : option string :=
  match (if PyStr.starts_with "youtube.com/@" s then nonempty_handle (drop 13 s) else None) with
  | Some h => Some h
  | None => if PyStr.starts_with "@" s then nonempty_handle (drop 1 s) else None
  end.

(** [youtube\.com/@([a-zA-Z0-9_.-]+)] *)
Definition handle_here_url (s : string) : option string :=
  if PyStr.starts_with "youtube.com/@" s then nonempty_handle (drop 13 s) else None.

(** [youtube\.com/(?:c|user)/([a-zA-Z0-9_.-]+)] *)
Definition vanity_here (s : string) : option string :=
  if PyStr.starts_with "youtube.com/" s then
    let r := drop 12 s in
    match (if PyStr.starts_with "c/" r then nonempty_handle (drop 2 r) else None) with
    | Some n => Some n
    | None => if PyStr.starts_with "user/" r then nonempty_handle (drop 5 r) else None
    end
  else None.

(** What the resolver does: return a result without any network call, or
    tail-call the name lookup with a query string. *)
Inductive resolve_step :=
  | Resolved (channel_id : option string)
  | LookupName (query : string).

(** [YouTubeService.resolve_channel_id] of src/api/app/services/youtube.py
    (lines 16-40) and [YouTubeService.resolve_channel_id] of src/api/search.py. *)
Definition resolve_channel_id (channel_url_or_id : string) : resolve_step :=
  if negb (PyStr.truthy channel_url_or_id) then Resolved None
  else if direct_id_match channel_url_or_id then Resolved (Some channel_url_or_id)
  else match re_search channel_url_here channel_url_or_id with
  | Some id => Resolved (Some id)
  | None =>
  match re_search handle_here_opt_prefix channel_url_or_id with
  | Some h => LookupName h
  | None =>
  match re_search vanity_here channel_url_or_id with
  | Some n => LookupName n
  | None => LookupName channel_url_or_id
  end end end.

(** [_extract_channel_id] of src/app.py (lines 78-113); the
    [resolve_channel_id] of src/backend/app/services/youtube.py is the same
    chain: the handle needs the [youtube.com/] prefix and there is no fallback. *)
Definition extract_channel_id (channel_url_or_id : string) : resolve_step :=
  if negb (PyStr.truthy channel_url_or_id) then Resolved None
  else if direct_id_match channel_url_or_id then Resolved (Some channel_url_or_id)
  else match re_search channel_url_here channel_url_or_id with
  | Some id => Resolved (Some id)
  | None =>
  match re_search handle_here_url channel_url_or_id with
  | Some h => LookupName h
  | None =>
  match re_search vanity_here channel_url_or_id with
  | Some n => LookupName n
  | None => Resolved None
  end end end.

(** One item of the [search().list(type="channel")] response:
    [item["snippet"]["channelId"]] and [item["snippet"]["title"]]. *)
Record search_item := mk_search_item {
  si_channel_id : option string;
  si_title : option string
}.

(** The remote search call: its response, or the exception it raised. *)
Inductive search_response :=
  | SearchOk (items : list search_item)
  | SearchRaises (e : exn).

(** [YouTubeService._resolve_name_to_channel_id] of
    src/api/app/services/youtube.py (lines 42-60): every exception raised in
    the [try] block, including the [KeyError] of a malformed item, is
    caught and turned into [None]. *)
Definition resolve_name_to_channel_id (response : search_response) : py (option string) :=
  match response with
  | SearchRaises _ => Ret None
  | SearchOk [] => Ret None
  | SearchOk (item :: _) =>
      match si_channel_id item with
      | Some channel_id => Ret (Some channel_id)
      | None => Ret None
      end
  end.

(** [_resolve_name_to_channel_id_sync] of src/app.py (lines 44-75): a falsy
    API key raises [ValueError] before the [try]; an [HttpError] and any other
    exception of the call are re-raised as [YouTubeChannelError].  The
    messages of those errors are given by their fixed opening words only:
    the name, the HTTP status and content, and [str(e)] that the f-strings
    append are not modelled, as nothing here depends on them. *)
Definition resolve_name_to_channel_id_sync (api_key : option string) (response : search_response)
  : py (option string) :=
  if negb (PyStr.truthy_opt api_key) then Raise (ValueError "YouTube API Key is not configured.")
  else match response with
  | SearchRaises HttpError =>
      Raise (YouTubeChannelError "YouTube API error during name resolution")
  | SearchRaises _ =>
      Raise (YouTubeChannelError "An unexpected error occurred resolving")
  | SearchOk [] => Ret None
  | SearchOk (item :: _) =>
      match si_channel_id item, si_title item with
      | Some channel_id, Some _ => Ret (Some channel_id)
      | _, _ => Raise (YouTubeChannelError "An unexpected error occurred resolving")
      end
  end.

End Resolver.

(** ** Paginated Video Lister *)

Module Lister.

(** One item of a [playlistItems().list] page, read with [.get]:
    [contentDetails.videoId], [snippet.publishedAt], [snippet.title] and
    [snippet.thumbnails.high.url]. *)
Record raw_item := mk_raw_item {
  ri_video_id : option string;
  ri_published_at : option string;
  ri_title : option string;
  ri_thumbnail : option string
}.

(** The remote page call: the page's items and [nextPageToken], or the
    exception it raised. *)
Inductive page_response :=
  | PageOk (items : list raw_item) (next_page_token : option string)
  | PageRaises (e : exn).

(** The tuple [(video_id, published_at, title)] of src/app.py. *)
Definition video_detail : Type := (string * string * string)%type.

(** The item filter of [_fetch_video_details_page]:
    [if video_id and published_at and title: video_details.append(...)]. *)
Fixpoint keep_details (items : list raw_item) : list video_detail :=
  match items with
  | [] => []
  | item :: rest =>
      match ri_video_id item, ri_published_at item, ri_title item with
      | Some video_id, Some published_at, Some title =>
          if PyStr.truthy video_id && PyStr.truthy published_at && PyStr.truthy title
          then (video_id, published_at, title) :: keep_details rest
          else keep_details rest
      | _, _, _ => keep_details rest
      end
  end.

(** [_fetch_video_details_page] of src/app.py (lines 144-180).  The
    [YouTubeChannelError] messages are kept to their fixed prefix (the HTTP
    status and content, or [str(e)], that follow it are not modelled). *)
Definition fetch_video_details_page (api_key : option string) (response : page_response)
  : py (list video_detail * option string) :=
  if negb (PyStr.truthy_opt api_key) then Raise (ValueError "YouTube API Key is not configured.")
  else match response with
  | PageRaises HttpError =>
      Raise (YouTubeChannelError "YouTube API error fetching video details page")
  | PageRaises _ =>
      Raise (YouTubeChannelError "An unexpected error occurred fetching video details page")
  | PageOk items next_page_token => Ret (keep_details items, next_page_token)
  end.

Definition RETRY_ATTEMPTS : nat := 3.

Section FetchAll.

Variable api_key : option string.
Variable max_videos : Z.
(** The playlist as the platform serves it: the answer to the page request
    made as call number [n] with a page token. *)
Variable playlist_page : nat -> option string -> page_response.

(** The [while True] loop of [fetch_all_video_details] (src/app.py lines
    183-226), run for at most [fuel] iterations ([None] when the fuel runs
    out).  On [break] it returns [all_details], before the final slice.
    It also returns, for each page request it made, the number of details
    accumulated when the request was made. *)
Fixpoint fetch_all_loop (fuel : nat) (calls : nat) (all_details : list video_detail)
    (next_page_token : option string) (fetch_attempt : nat)
  : option (py (list video_detail) * list nat) :=
  match fuel with
  | O => None
  | S fuel' =>
      let here := List.length all_details in
      let continue r := option_map (fun '(res, trace) => (res, here :: trace)) r in
      match fetch_video_details_page api_key (playlist_page calls next_page_token) with
      | Ret (details_page, next) =>
          let all_details' := (all_details ++ details_page)%list in
          if (max_videos <=? Z.of_nat (List.length all_details'))%Z then Some (Ret all_details', [here])
          else if negb (PyStr.truthy_opt next) then Some (Ret all_details', [here])
          else continue (fetch_all_loop fuel' (S calls) all_details' next 0)
      | Raise (YouTubeChannelError _) =>
          let fetch_attempt' := S fetch_attempt in
          if Nat.leb RETRY_ATTEMPTS fetch_attempt'
          then Some (Raise (YouTubeChannelError "Failed to fetch video details after 3 attempts."), [here])
          else continue (fetch_all_loop fuel' (S calls) all_details next_page_token fetch_attempt')
      | Raise e => Some (Raise e, [here])
      end
  end.

(** [fetch_all_video_details]: the loop, then [all_details[:max_videos]]. *)
Definition fetch_all_video_details (fuel : nat) : option (py (list video_detail) * list nat) :=
  match fetch_all_loop fuel 0 [] None 0 with
  | Some (Ret all_details, trace) => Some (Ret (py_slice_to all_details max_videos), trace)
  | Some (Raise e, trace) => Some (Raise e, trace)
  | None => None
  end.

End FetchAll.

(** The video dict of [YouTubeService.fetch_videos]. *)
Record video_dict := mk_video_dict {
  vd_id : option string;
  vd_title : option string;
  vd_published_at : option string;
  vd_thumbnail : option string
}.

Definition to_video_dict (item : raw_item) : video_dict :=
  mk_video_dict (ri_video_id item) (ri_title item) (ri_published_at item) (ri_thumbnail item).

Section FetchVideos.

Variable max_videos : Z.
(** The answer to the page request made as call number [n] with a page
    token and [maxResults]. *)
Variable playlist_items : nat -> option string -> Z -> page_response.

(** The [while len(videos) < max_videos] loop of [YouTubeService.fetch_videos]
    (src/api/app/services/youtube.py lines 73-99; the same code in
    src/backend/app/services/youtube.py): every item is appended, and an
    exception of the call propagates. *)
Fixpoint fetch_videos_loop (fuel : nat) (calls : nat) (videos : list video_dict)
    (next_page_token : option string) : option (py (list video_dict)) :=
  if (Z.of_nat (List.length videos) <? max_videos)%Z then
    match fuel with
    | O => None
    | S fuel' =>
        match playlist_items calls next_page_token
                (Z.min 50 (max_videos - Z.of_nat (List.length videos))) with
        | PageRaises e => Some (Raise e)
        | PageOk items next =>
            let videos' := (videos ++ map to_video_dict items)%list in
            if negb (PyStr.truthy_opt next) then Some (Ret videos')
            else fetch_videos_loop fuel' (S calls) videos' next
        end
    end
  else Some (Ret videos).

Definition fetch_videos (fuel : nat) : option (py (list video_dict)) :=
  fetch_videos_loop fuel 0 [] None.

End FetchVideos.

End Lister.

(** ** Timestamps *)

Module Dates.

Local Open Scope Z_scope.

(** A Python [datetime]: its instant in seconds (UTC for an aware one, the
    wall clock read as UTC for a naive one) and whether it carries a UTC
    offset. *)
Record datetime := mk_datetime { dt_seconds : Z; dt_aware : bool }.

Definition digit_value (c : ascii) : option Z :=
  let n := nat_of_ascii c in
  if Nat.leb 48 n && Nat.leb n 57 then Some (Z.of_nat (n - 48)) else None.

(** Exactly [n] ASCII digits at the start of [s], as a number, and the rest. *)
Fixpoint digits (n : nat) (acc : Z) (s : string) : option (Z * string) :=
  match n with
  | O => Some (acc, s)
  | S n' =>
      match s with
      | String c s' =>
          match digit_value c with
          | Some d => digits n' (acc * 10 + d)%Z s'
          | None => None
          end
      | EmptyString => None
      end
  end.

Definition expect (c : ascii) (s : string) : option string :=
  match s with
  | String d s' => if Ascii.eqb c d then Some s' else None
  | EmptyString => None
  end.

Definition is_leap (y : Z) : bool :=
  ((Z.modulo y 4 =? 0) && negb (Z.modulo y 100 =? 0)) || (Z.modulo y 400 =? 0).

Definition days_in_month (y m : Z) : Z :=
  if (m =? 2)%Z then (if is_leap y then 29 else 28)
  else if (m =? 4)%Z || (m =? 6)%Z || (m =? 9)%Z || (m =? 11)%Z then 30 else 31.

(** Days from 1970-01-01 to a proleptic Gregorian date. *)
Definition days_from_civil (y m d : Z) : Z :=
  let y' := if (m <=? 2)%Z then y - 1 else y in
  let era := y' / 400 in
  let yoe := y' - era * 400 in
  let mp := if (m >? 2)%Z then m - 3 else m + 9 in
  let doy := (153 * mp + 2) / 5 + d - 1 in
  let doe := yoe * 365 + yoe / 4 - yoe / 100 + doy in
  (era * 146097 + doe - 719468)%Z.

Definition bind_opt {A B} (o : option A) (f : A -> option B) : option B :=
  match o with Some a => f a | None => None end.

(** The UTC offset suffix: none (a naive datetime) or [+HH:MM] / [-HH:MM]. *)
Definition parse_offset (s : string) : option (option Z) :=
  match s with
  | EmptyString => Some None
  | String c rest =>
      let sign := if Ascii.eqb c "+" then Some 1%Z
                  else if Ascii.eqb c "-" then Some (-1)%Z else None in
      bind_opt sign (fun sg =>
      bind_opt (digits 2 0 rest) (fun '(hh, r1) =>
      bind_opt (expect ":" r1) (fun r2 =>
      bind_opt (digits 2 0 r2) (fun '(mm, r3) =>
      match r3 with
      | EmptyString =>
          if (hh <? 24)%Z && (mm <? 60)%Z then Some (Some (sg * (hh * 3600 + mm * 60))%Z) else None
      | _ => None
      end))))
  end.

(** [datetime.fromisoformat] on the forms [YYYY-MM-DD] and
    [YYYY-MM-DDTHH:MM:SS] with an optional [+HH:MM]/[-HH:MM] offset;
    [None] stands for the [ValueError] it raises.  (Python accepts more
    forms, such as fractional seconds; they do not occur here.) *)
Definition fromisoformat (s : string) : option datetime :=
  bind_opt (digits 4 0 s) (fun '(y, r1) =>
  bind_opt (expect "-" r1) (fun r2 =>
  bind_opt (digits 2 0 r2) (fun '(m, r3) =>
  bind_opt (expect "-" r3) (fun r4 =>
  bind_opt (digits 2 0 r4) (fun '(d, r5) =>
  if negb ((1 <=? y)%Z && (1 <=? m)%Z && (m <=? 12)%Z && (1 <=? d)%Z && (d <=? days_in_month y m)%Z)
  then None
  else
  let day_seconds := (days_from_civil y m d * 86400)%Z in
  match r5 with
  | EmptyString => Some (mk_datetime day_seconds false)
  | String t r6 =>
      if negb (Ascii.eqb t "T") then None else
      bind_opt (digits 2 0 r6) (fun '(hh, r7) =>
      bind_opt (expect ":" r7) (fun r8 =>
      bind_opt (digits 2 0 r8) (fun '(mi, r9) =>
      bind_opt (expect ":" r9) (fun r10 =>
      bind_opt (digits 2 0 r10) (fun '(ss, r11) =>
      if negb ((hh <? 24)%Z && (mi <? 60)%Z && (ss <? 60)%Z) then None else
      bind_opt (parse_offset r11) (fun off =>
      let secs := (day_seconds + hh * 3600 + mi * 60 + ss)%Z in
      match off with
      | None => Some (mk_datetime secs false)
      | Some o => Some (mk_datetime (secs - o) true)
      end))))))
  end))))).

(** [datetime.fromisoformat(s.replace('Z', '+00:00'))] *)
Definition parse_published (s : string) : option datetime :=
  fromisoformat (PyStr.replace_char "Z" "+00:00" s).

(** [a <= b] on datetimes: ordering a naive and an aware datetime raises
    [TypeError]. *)
Definition dt_le (a b : datetime) : py bool :=
  if Bool.eqb (dt_aware a) (dt_aware b) then Ret (dt_seconds a <=? dt_seconds b)%Z
  else Raise TypeError.

End Dates.

(** ** Date Filter and Search Orchestrator *)

(** Strings here are UTF-8 byte strings; a Python prefix test on code
    points is the byte prefix test on their encodings. *)

(** The marker that opens the warnings of src/app.py (the date loop of
    [process_channel_search] and [_process_single_video]), as it is stored
    there: the UTF-8 bytes of the six characters shown in the source. *)
Definition warning_mark : string :=
  fold_right (fun n s => String (ascii_of_nat n) s) EmptyString
    [226; 128; 154; 195; 182; 226; 128; 160; 195; 148; 226; 136; 143; 195; 168]%nat.

Module Orchestrator.
Import Lister Dates.

(** [str(e)] of the exceptions a comparison of datetimes raises: the only
    one, [TypeError], carries Python's message. *)
Definition str_compare_error (e : exn) : string :=
  match e with
  | TypeError => "can't compare offset-naive and offset-aware datetimes"
  | _ => ""
  end.

(** One iteration of the date loop of [process_channel_search] (src/app.py
    lines 446-458): [start_date <= pub_date <= end_date] on a parsed date; a
    [ValueError] of the parse and any other exception (the [TypeError] of
    comparing a naive date with the aware bounds) become a warning. *)
Definition date_step (start_date end_date : datetime) (detail : video_detail)
  : option video_detail + string :=
  let '(video_id, pub_date_str, title) := detail in
  match parse_published pub_date_str with
  | None =>
      inr (warning_mark ++ " Warning: Could not parse publish date '" ++ pub_date_str
           ++ "' for video " ++ video_id ++ ". Skipping.")
  | Some pub_date =>
      match dt_le start_date pub_date with
      | Raise e => inr (warning_mark ++ " Warning: Error processing date for video " ++ video_id
                        ++ ": " ++ str_compare_error e ++ ". Skipping.")
      | Ret false => inl None
      | Ret true =>
          match dt_le pub_date end_date with
          | Raise e => inr (warning_mark ++ " Warning: Error processing date for video " ++ video_id
                            ++ ": " ++ str_compare_error e ++ ". Skipping.")
          | Ret false => inl None
          | Ret true => inl (Some detail)
          end
      end
  end.

(** The loop itself: [filtered_videos] and [warnings]. *)
Fixpoint date_filter_loop (start_date end_date : datetime) (details : list video_detail)
    (filtered_videos : list video_detail) (warnings : list string)
  : list video_detail * list string :=
  match details with
  | [] => (filtered_videos, warnings)
  | detail :: rest =>
      match date_step start_date end_date detail with
      | inl (Some d) => date_filter_loop start_date end_date rest (filtered_videos ++ [d])%list warnings
      | inl None => date_filter_loop start_date end_date rest filtered_videos warnings
      | inr w => date_filter_loop start_date end_date rest filtered_videos (warnings ++ [w])%list
      end
  end.

Definition app_date_filter (start_date end_date : datetime) (details : list video_detail)
  : list video_detail * list string :=
  date_filter_loop start_date end_date details [] [].

(** The list comprehension
    [[v for v in videos if fromisoformat(v['publishedAt'].replace('Z', '+00:00')) >= cutoff_date]]:
    a missing [publishedAt] raises [AttributeError] on [None.replace], an
    unparseable one raises [ValueError], a naive/aware mix raises [TypeError]. *)
Fixpoint published_after_comprehension (cutoff_date : datetime) (videos : list video_dict)
  : py (list video_dict) :=
  match videos with
  | [] => Ret []
  | v :: rest =>
      match vd_published_at v with
      | None => Raise AttributeError
      | Some published_at =>
          match parse_published published_at with
          | None => Raise (ValueError "Invalid isoformat string")
          | Some d =>
              match dt_le cutoff_date d with
              | Raise e => Raise e
              | Ret keep =>
                  match published_after_comprehension cutoff_date rest with
                  | Raise e => Raise e
                  | Ret kept => Ret (if keep then v :: kept else kept)
                  end
              end
          end
      end
  end.

(** The date filter of [search] in src/api/search.py (lines 207-220; the
    same code in src/api/app/routers/search.py lines 104-113): one [try]
    around the parse of the cutoff and the whole comprehension, catching
    [ValueError] only; the list is then cut to [max_videos]. *)
Definition api_date_filter (published_after : option string) (max_videos : Z)
    (videos : list video_dict) : py (list video_dict) :=
  match published_after with
  | Some pa =>
      if negb (PyStr.truthy pa) then Ret videos else
      match parse_published pa with
      | None => Ret videos
      | Some cutoff_date =>
          match published_after_comprehension cutoff_date videos with
          | Ret kept => Ret (py_slice_to kept max_videos)
          | Raise (ValueError _) => Ret videos
          | Raise e => Raise e
          end
      end
  | None => Ret videos
  end.

(** The Pydantic model [SearchResult]. *)
Record search_result := mk_search_result {
  sr_video_id : string;
  sr_title : string;
  sr_published_at : string;
  sr_thumbnail : string;
  sr_matches : list match_result
}.

(** [SearchResult(video_id=..., ...)]: a [None] field fails validation. *)
Definition make_search_result (video : video_dict) (matches : list match_result)
  : py search_result :=
  match vd_id video, vd_title video, vd_published_at video, vd_thumbnail video with
  | Some i, Some t, Some p, Some th => Ret (mk_search_result i t p th matches)
  | _, _, _, _ => Raise (ValueError "validation error for SearchResult")
  end.

Section Collect.

Variable keyword : string.
(** [service.get_transcript(video["id"])] as call number [n]; the service
    catches every failure and returns [[]]. *)
Variable get_transcript : nat -> option string -> list segment.

(** The result loop of [search] (src/backend/app/routers/search.py lines
    37-50; src/api/search.py lines 222-243 and
    src/api/app/routers/search.py lines 117-139 are the same loop). *)
Fixpoint collect_results (n : nat) (videos : list video_dict) (results : list search_result)
  : py (list search_result) :=
  match videos with
  | [] => Ret results
  | video :: rest =>
      let transcript := get_transcript n (vd_id video) in
      match transcript with
      | [] => collect_results (S n) rest results
      | _ :: _ =>
          let matches := search_in_transcript transcript keyword in
          match matches with
          | [] => collect_results (S n) rest results
          | _ :: _ =>
              match make_search_result video matches with
              | Ret r => collect_results (S n) rest (results ++ [r])%list
              | Raise e => Raise e
              end
          end
      end
  end.

End Collect.

End Orchestrator.

(** ** Per-video view of the search loop and the API date filter *)

Module OrchestratorView.
Import Lister Dates Orchestrator.

(** What the search loop contributes for the video handled as call [n]:
    the fetched transcript, its matches, and the [SearchResult] built from
    them when there is at least one match. *)
Definition video_contribution (keyword : string) (get_transcript : nat -> option string -> list segment)
    (n : nat) (video : video_dict) : option (py search_result) :=
  match get_transcript n (vd_id video) with
  | [] => None
  | transcript =>
      match search_in_transcript transcript keyword with
      | [] => None
      | matches => Some (make_search_result video matches)
      end
  end.

(** The results the loop yields for [videos] handled from call [n] on, when
    no [SearchResult] fails validation. *)
Fixpoint expected_results (keyword : string) (get_transcript : nat -> option string -> list segment)
    (n : nat) (videos : list video_dict) : list search_result :=
  match videos with
  | [] => []
  | video :: rest =>
      match video_contribution keyword get_transcript n video with
      | Some (Ret r) => r :: expected_results keyword get_transcript (S n) rest
      | _ => expected_results keyword get_transcript (S n) rest
      end
  end.

Definition fields_present (video : video_dict) : Prop :=
  vd_id video <> None /\ vd_title video <> None /\ vd_published_at video <> None
  /\ vd_thumbnail video <> None.

(** [cutoff <= publishedAt] for a video whose timestamp parses. *)
Definition published_on_or_after (cutoff : datetime) (video : video_dict) : bool :=
  match vd_published_at video with
  | Some p => match parse_published p with
              | Some d => (dt_seconds cutoff <=? dt_seconds d)%Z
              | None => false
              end
  | None => false
  end.

(** The timestamp of a video parses as an aware datetime. *)
Definition aware_timestamp (video : video_dict) : Prop :=
  exists p d, vd_published_at video = Some p /\ parse_published p = Some d /\ dt_aware d = true.

End OrchestratorView.

(** ** The uploads playlist of a channel *)

Module Playlist.

(** The first item of a [channels().list] response, read down to
    [contentDetails.relatedPlaylists.uploads]; [None] when a key on the way
    is missing. *)
Record channel_item := mk_channel_item { ci_uploads : option string }.

(** The remote [channels().list] call: its items, or the exception it raised. *)
Inductive channels_response :=
  | ChannelsOk (items : list channel_item)
  | ChannelsRaises (e : exn).

(** [YouTubeService.fetch_uploads_playlist_id] (src/api/search.py lines
    81-94; the same code in src/api/app/services/youtube.py): no [try]; an
    empty [items] raises [ValueError], a missing key of the first item
    [KeyError]. *)
Definition fetch_uploads_playlist_id (channel_id : string) (response : channels_response)
  : py string :=
  match response with
  | ChannelsRaises e => Raise e
  | ChannelsOk [] => Raise (ValueError ("No channel found with ID: " ++ channel_id))
  | ChannelsOk (item :: _) =>
      match ci_uploads item with
      | Some playlist_id => Ret playlist_id
      | None => Raise KeyError
      end
  end.

(** [fetch_playlist_id] of src/app.py (lines 117-145): a falsy key raises
    [ValueError] before the [try]; inside it, the [YouTubeChannelError]s the
    function raises itself are caught by [except Exception] and raised
    again, wrapped, as [YouTubeChannelError]; so is every exception of the
    call (its message, which quotes that exception, is kept to its fixed
    prefix). *)
Definition fetch_playlist_id (channel_id : string) (api_key : option string)
    (response : channels_response) : py string :=
  if negb (PyStr.truthy_opt api_key) then Raise (ValueError "YouTube API Key is not configured.")
  else
  let unexpected msg :=
    Raise (YouTubeChannelError ("An unexpected error occurred fetching playlist ID: " ++ msg)) in
  match response with
  | ChannelsRaises HttpError => Raise (YouTubeChannelError "YouTube API error fetching playlist ID")
  | ChannelsRaises _ => Raise (YouTubeChannelError "An unexpected error occurred fetching playlist ID")
  | ChannelsOk [] => unexpected ("No channel found with ID: " ++ channel_id)
  | ChannelsOk (item :: _) =>
      match ci_uploads item with
      | Some uploads_playlist_id =>
          if PyStr.truthy uploads_playlist_id then Ret uploads_playlist_id
          else unexpected ("Could not find uploads playlist ID for channel: " ++ channel_id)
      | None => unexpected ("Could not find uploads playlist ID for channel: " ++ channel_id)
      end
  end.

End Playlist.

(** ** The self-contained API entry point (src/api/search.py) *)

Module ApiSearch.
Import Resolver Lister Dates Orchestrator Playlist.

(** [c.isspace()] on one character (ASCII: tab, line feed, vertical tab,
    form feed, carriage return, the separators 28-31 and space). *)
Definition is_space (c : ascii) : bool :=
  let n := nat_of_ascii c in
  (Nat.leb 9 n && Nat.leb n 13) || (Nat.leb 28 n && Nat.leb n 32).

(** [not s.strip()]: every character is white space (API keys are ASCII). *)
Fixpoint blank (s : string) : bool :=
  match s with
  | EmptyString => true
  | String c s' => is_space c && blank s'
  end.

Section FetchVideosTolerant.

Variable max_videos : Z.
Variable playlist_items : nat -> option string -> Z -> page_response.

(** The loop of [YouTubeService.fetch_videos] in src/api/search.py (lines
    96-131): like the service's loop, except that an exception of the call
    is caught and ends the loop with the videos collected so far. *)
Fixpoint fetch_videos_tolerant_loop (fuel : nat) (calls : nat) (videos : list video_dict)
    (next_page_token : option string) : option (list video_dict) :=
  if (Z.of_nat (List.length videos) <? max_videos)%Z then
    match fuel with
    | O => None
    | S fuel' =>
        match playlist_items calls next_page_token
                (Z.min 50 (max_videos - Z.of_nat (List.length videos))) with
        | PageRaises _ => Some videos
        | PageOk items next =>
            let videos' := (videos ++ map to_video_dict items)%list in
            if negb (PyStr.truthy_opt next) then Some videos'
            else fetch_videos_tolerant_loop fuel' (S calls) videos' next
        end
    end
  else Some videos.

Definition fetch_videos_tolerant (fuel : nat) : option (list video_dict) :=
  fetch_videos_tolerant_loop fuel 0 [] None.

End FetchVideosTolerant.

(** The answer of the endpoint: the result list, or an [HTTPException]. *)
Inductive http_result :=
  | HttpOk (results : list search_result)
  | HttpException (status_code : Z) (detail : string).

Section Search.

(** The remote calls: the channel search for a query, [channels().list]
    for a channel ID, [playlistItems().list] for a playlist (by call number,
    page token and [maxResults]) and the transcript service (by call number
    and video ID, failures already turned into [[]] by [get_transcript]). *)
Variable channel_search : string -> search_response.
Variable channels : string -> channels_response.
Variable playlist_items : string -> nat -> option string -> Z -> page_response.
Variable get_transcript : nat -> option string -> list segment.
(** [str(e)], the detail of the HTTP 500 built from an exception. *)
Variable str_exn : exn -> string.

(** [service.resolve_channel_id(channel_url)]: the resolver of this file is
    the service's, line for line. *)
Definition resolve_channel (channel_url : string) : py (option string) :=
  match resolve_channel_id channel_url with
  | Resolved r => Ret r
  | LookupName q => resolve_name_to_channel_id (channel_search q)
  end.

(** [search] of src/api/search.py (lines 165-250), with [fuel] bounding the
    pages of the listing ([None] when it runs out); building the client
    ([YouTubeService(api_key)]) is taken to succeed. *)
Definition search (api_key : option string) (channel_url keyword : string) (max_videos : Z)
    (published_after : option string) (fuel : nat) : option http_result :=
  if negb (PyStr.truthy_opt api_key) then
    Some (HttpException 500 "YouTube API key not configured")
  else if blank (match api_key with Some k => k | None => "" end) then
    Some (HttpException 500 "YouTube API key is empty")
  else
  match resolve_channel channel_url with
  | Raise e => Some (HttpException 500 (str_exn e))
  | Ret None => Some (HttpException 400 "Invalid YouTube channel URL or ID")
  | Ret (Some cid) =>
      if negb (PyStr.truthy cid) then Some (HttpException 400 "Invalid YouTube channel URL or ID")
      else
      match fetch_uploads_playlist_id cid (channels cid) with
      | Raise e => Some (HttpException 500 (str_exn e))
      | Ret playlist_id =>
          let fetch_count :=
            if PyStr.truthy_opt published_after then (max_videos * 5)%Z else max_videos in
          match fetch_videos_tolerant fetch_count (playlist_items playlist_id) fuel with
          | None => None
          | Some [] => Some (HttpOk [])
          | Some videos =>
              match api_date_filter published_after max_videos videos with
              | Raise e => Some (HttpException 500 (str_exn e))
              | Ret videos' =>
                  match collect_results keyword get_transcript 0 videos' [] with
                  | Raise e => Some (HttpException 500 (str_exn e))
                  | Ret results => Some (HttpOk results)
                  end
              end
          end
      end
  end.

End Search.

End ApiSearch.

(** ** Transcripts of the Streamlit application (src/app.py) *)

Module StreamlitTranscripts.
Import Lister.

(** [TranscriptFetchError(msg)]; [str] of it is [msg]. *)
Inductive transcript_error := TranscriptFetchError (msg : string).

Definition str_error (e : transcript_error) : string :=
  match e with TranscriptFetchError msg => msg end.

(** What [YouTubeTranscriptApi.get_transcript] does for one call: the
    transcript, [TranscriptsDisabled], [NoTranscriptFound] or another
    exception (with its message). *)
Inductive transcript_outcome :=
  | Fetched (transcript : list segment)
  | Disabled
  | NoTranscriptFound
  | FetchFails (msg : string).

(** What the follow-up [YouTubeTranscriptApi.list_transcripts] call and the
    comprehension over it give: the languages, or the message of the
    exception raised. *)
Inductive listing := Listed (langs : list string) | ListingFails (msg : string).

(** [repr] of a list of language names (names without quotes or
    backslashes). *)
Definition py_repr_list (l : list string) : string :=
  "[" ++ String.concat ", " (map (fun s => "'" ++ s ++ "'") l) ++ "]".

(** The module-level [_transcript_cache] dict, in insertion order. *)
Definition cache : Type := list (string * list segment).

Fixpoint cache_lookup (video_id : string) (c : cache) : option (list segment) :=
  match c with
  | [] => None
  | (k, v) :: rest => if String.eqb k video_id then Some v else cache_lookup video_id rest
  end.

(** [c[video_id] = transcript]: a present key keeps its place. *)
Fixpoint cache_insert (video_id : string) (transcript : list segment) (c : cache) : cache :=
  match c with
  | [] => [(video_id, transcript)]
  | (k, v) :: rest =>
      if String.eqb k video_id then (k, transcript) :: rest
      else (k, v) :: cache_insert video_id transcript rest
  end.

Section Fetch.

(** The transcript service: the answer to remote call number [n] when it
    is a [get_transcript] call, and when it is a [list_transcripts] call,
    for a video ID. *)
Variable get_transcript_api : nat -> string -> transcript_outcome.
Variable list_transcripts_api : nat -> string -> listing.

(** [fetch_transcript] of src/app.py (lines 246-269), threading the number
    of remote calls made so far and the cache.  After [NoTranscriptFound]
    the [list_transcripts] call is the next remote call; the
    [TranscriptFetchError] raised inside the inner [try] is caught by its
    [except Exception] and wrapped again. *)
Definition fetch_transcript (n : nat) (c : cache) (video_id : string)
  : (list segment + transcript_error) * nat * cache :=
  match cache_lookup video_id c with
  | Some transcript => (inl transcript, n, c)
  | None =>
      match get_transcript_api n video_id with
      | Fetched transcript_list => (inl transcript_list, S n, cache_insert video_id transcript_list c)
      | Disabled =>
          (inr (TranscriptFetchError ("Transcripts are disabled for video: " ++ video_id)), S n, c)
      | NoTranscriptFound =>
          let inner_e :=
            match list_transcripts_api (S n) video_id with
            | Listed langs =>
                "No English transcript found for " ++ video_id ++ ". Available: "
                ++ (match langs with [] => "None" | _ => py_repr_list langs end)
            | ListingFails msg => msg
            end in
          (inr (TranscriptFetchError
                  ("Could not fetch transcript or list available ones for " ++ video_id ++ ": "
                   ++ inner_e)), S (S n), c)
      | FetchFails msg =>
          (inr (TranscriptFetchError
                  ("An unexpected error occurred fetching transcript for " ++ video_id ++ ": "
                   ++ msg)), S n, c)
      end
  end.

(** The retry loop of [_process_single_video] (src/app.py lines 341-356),
    with [attempts_left = RETRY_ATTEMPTS - transcript_fetch_attempt]:
    [fetch_transcript] raises only [TranscriptFetchError], so the branch for
    other exceptions is never taken.  It returns the transcript (or
    [None]), [last_transcript_error], the call count and the cache. *)
Fixpoint transcript_retry (attempts_left : nat) (n : nat) (c : cache) (video_id : string)
    (last_transcript_error : option transcript_error)
  : option (list segment) * option transcript_error * nat * cache :=
  match attempts_left with
  | O => (None, last_transcript_error, n, c)
  | S attempts_left' =>
      match fetch_transcript n c video_id with
      | (inl transcript, n', c') => (Some transcript, last_transcript_error, n', c')
      | (inr e, n', c') => transcript_retry attempts_left' n' c' video_id (Some e)
      end
  end.

(** [str(x)] of a Python [int]. *)
Fixpoint digits_aux (fuel : nat) (z : Z) (acc : string) : string :=
  match fuel with
  | O => acc
  | S fuel' =>
      let acc' := String (ascii_of_nat (48 + Z.to_nat (z mod 10))) acc in
      if (z / 10 =? 0)%Z then acc' else digits_aux fuel' (z / 10) acc'
  end.

Definition int_str (z : Z) : string :=
  if (z <? 0)%Z then "-" ++ digits_aux (S (Z.to_nat (Z.log2 (- z)))) (- z) ""
  else digits_aux (S (Z.to_nat (Z.log2 z))) z "".

(** [f"{x:02d}"]: zero-padded to two characters, after the sign. *)
Definition fmt02 (z : Z) : string :=
  let s := int_str z in
  if (z <? 0)%Z then s else if Nat.ltb (String.length s) 2 then "0" ++ s else s.

(** [re.compile(re.escape(keyword), re.IGNORECASE).sub(r'**\g<0>**', text)]
    for a non-empty keyword: the matches are found left to right without
    overlap, each wrapped in [**]; case is ignored on ASCII letters, as in
    [PyStr.lower]. *)
Fixpoint highlight_nonempty (fuel : nat) (keyword text : string) : string :=
  match fuel with
  | O => text
  | S fuel' =>
      match text with
      | EmptyString => EmptyString
      | String ch rest =>
          if PyStr.starts_with (PyStr.lower keyword) (PyStr.lower text) then
            "**" ++ substring 0 (String.length keyword) text ++ "**"
            ++ highlight_nonempty fuel' keyword
                 (substring (String.length keyword) (String.length text - String.length keyword) text)
          else String ch (highlight_nonempty fuel' keyword rest)
      end
  end.

(** The empty pattern matches at every position, the end included. *)
Fixpoint highlight_empty (text : string) : string :=
  match text with
  | EmptyString => "****"
  | String ch rest => "****" ++ String ch (highlight_empty rest)
  end.

Definition highlight (keyword text : string) : string :=
  match keyword with
  | EmptyString => highlight_empty text
  | _ => highlight_nonempty (String.length text) keyword text
  end.

Definition watch_url (video_id : string) : string :=
  "https://www.youtube.com/watch?v=" ++ video_id.

(** The Markdown of the matches of one video (src/app.py lines 370-382);
    [start] is kept as an integer number of seconds. *)
Definition format_match (video_id keyword : string) (m : match_result) : string :=
  let start_time := m_start m in
  "- [" ++ fmt02 (start_time / 60)%Z ++ ":" ++ fmt02 (start_time mod 60)%Z ++ "]("
  ++ watch_url video_id ++ "&t=" ++ int_str start_time ++ "s): "
  ++ highlight keyword (m_text m) ++ String "010" EmptyString.

Definition format_results (video_id title keyword : string) (matches : list match_result)
  : list string :=
  match matches with
  | [] => []
  | _ :: _ =>
      ("### [" ++ title ++ "](" ++ watch_url video_id ++ ")" ++ String "010" EmptyString)
      :: map (format_match video_id keyword) matches
      ++ [String "010" ("---" ++ String "010" EmptyString)]
  end.

Definition warning_line (video_id title : string) (e : transcript_error) : string :=
  warning_mark ++ " Skipping video [" ++ title ++ "](" ++ watch_url video_id ++ "): `"
  ++ str_error e ++ "`" ++ String "010" EmptyString.

(** [_process_single_video] of src/app.py (lines 329-388): a cached
    transcript is used as is; otherwise up to [RETRY_ATTEMPTS] fetches, the
    transcript is cached, searched (the matcher of src/app.py lines 274-297
    is the service's, line for line) and its matches formatted; a failed
    fetch becomes one warning line. *)
Definition process_single_video (n : nat) (c : cache) (video_id title pub_date_str keyword : string)
  : list string * nat * cache :=
  let fetched :=
    match cache_lookup video_id c with
    | Some transcript => inl (transcript, n, c)
    | None =>
        match transcript_retry RETRY_ATTEMPTS n c video_id None with
        | (Some transcript, _, n', c') => inl (transcript, n', cache_insert video_id transcript c')
        | (None, last, n', c') =>
            inr (match last with
                 | Some e => e
                 | None => TranscriptFetchError
                             ("Failed to fetch transcript for " ++ video_id ++ " after retries.")
                 end, n', c')
        end
    end in
  match fetched with
  | inl (transcript, n', c') =>
      (format_results video_id title keyword (search_in_transcript transcript keyword), n', c')
  | inr (e, n', c') => ([warning_line video_id title e], n', c')
  end.

End Fetch.

End StreamlitTranscripts.

(** ** The FastAPI router (src/api/app/routers/search.py) *)

Module ApiRouter.
Import Resolver Lister Dates Orchestrator Playlist ApiSearch.

Section Router.

Variable channel_search : string -> search_response.
Variable channels : string -> channels_response.
Variable playlist_items : string -> nat -> option string -> Z -> page_response.
Variable get_transcript : nat -> option string -> list segment.
Variable str_exn : exn -> string.

(** [search] of src/api/app/routers/search.py (lines 10-81) with its
    dependency [get_yt_service]: the resolver is the service's (the same
    code as [resolve_channel]) and runs outside the [try], which turns
    every exception, the [ValueError] of the playlist lookup included, into
    an HTTP 500; the listing is [YouTubeService.fetch_videos], over-fetching
    three times [max_videos] when a date filter is given. *)
Definition router_search (api_key : option string) (channel_url keyword : string)
    (max_videos : Z) (published_after : option string) (fuel : nat) : option http_result :=
  if negb (PyStr.truthy_opt api_key) then
    Some (HttpException 500 "YouTube API key not configured")
  else
  match resolve_channel channel_search channel_url with
  | Raise e => Some (HttpException 500 "Internal Server Error")
  | Ret None => Some (HttpException 400 "Invalid YouTube channel URL or ID")
  | Ret (Some cid) =>
      if negb (PyStr.truthy cid) then Some (HttpException 400 "Invalid YouTube channel URL or ID")
      else
      match fetch_uploads_playlist_id cid (channels cid) with
      | Raise e => Some (HttpException 500 (str_exn e))
      | Ret playlist_id =>
          let fetch_count :=
            if PyStr.truthy_opt published_after then (max_videos * 3)%Z else max_videos in
          match fetch_videos fetch_count (playlist_items playlist_id) fuel with
          | None => None
          | Some (Raise e) => Some (HttpException 500 (str_exn e))
          | Some (Ret videos) =>
              match api_date_filter published_after max_videos videos with
              | Raise e => Some (HttpException 500 (str_exn e))
              | Ret videos' =>
                  match collect_results keyword get_transcript 0 videos' [] with
                  | Raise e => Some (HttpException 500 (str_exn e))
                  | Ret results => Some (HttpOk results)
                  end
              end
          end
      end
  end.

End Router.

End ApiRouter.

(** ** Dates of the Streamlit application (src/app.py) *)

Module StreamlitDates.
Import Dates Lister.

(** What [parse_date] (src/app.py lines 308-327) is given: [None], a
    [datetime.date] (its year, month and day; a [datetime], a subclass of
    [date], is given by its date part, as [datetime.combine] keeps only
    that), a [str], or another object together with its [str]. *)
Inductive date_input :=
  | NoInput
  | DateValue (year month day : Z)
  | StrInput (s : string)
  | OtherInput (str_repr : string).

(** An ASCII character between [lo] and [hi], as the value of a digit. *)
Definition char_range (lo hi : ascii) (c : ascii) : option Z :=
  let n := nat_of_ascii c in
  if Nat.leb (nat_of_ascii lo) n && Nat.leb n (nat_of_ascii hi)
  then Some (Z.of_nat (n - 48)) else None.

(** One alternative of a group of the [strptime] regex: two characters
    read as a two-digit number, one digit, or a space and one digit
    ([int(' 5')] is 5).  It gives the number and the rest of the input. *)
Definition alt2 (p q : ascii -> option Z) (s : string) : option (Z * string) :=
  match s with
  | String a (String b r) =>
      match p a, q b with
      | Some x, Some y => Some ((10 * x + y)%Z, r)
      | _, _ => None
      end
  | _ => None
  end.

Definition alt1 (p : ascii -> option Z) (s : string) : option (Z * string) :=
  match s with
  | String a r => match p a with Some x => Some (x, r) | None => None end
  | EmptyString => None
  end.

Definition alt_space (p : ascii -> option Z) (s : string) : option (Z * string) :=
  match s with
  | String a r => if Ascii.eqb a " " then alt1 p r else None
  | EmptyString => None
  end.

(** [(?P<m>1[0-2]|0[1-9]|[1-9])] *)
Definition month_alts : list (string -> option (Z * string)) :=
  [alt2 (char_range "1" "1") (char_range "0" "2");
   alt2 (char_range "0" "0") (char_range "1" "9");
   alt1 (char_range "1" "9")].

(** [(?P<d>3[0-1]|[1-2]\d|0[1-9]|[1-9]| [1-9])] *)
Definition day_alts : list (string -> option (Z * string)) :=
  [alt2 (char_range "3" "3") (char_range "0" "1");
   alt2 (char_range "1" "2") (char_range "0" "9");
   alt2 (char_range "0" "0") (char_range "1" "9");
   alt1 (char_range "1" "9");
   alt_space (char_range "1" "9")].

(** An alternation followed by the rest [k] of the pattern, with the
    backtracking of [re]: the alternatives are tried in order, and the
    first one the rest of the pattern accepts wins. *)
Fixpoint first_alt {A} (alts : list (string -> option (Z * string)))
    (k : Z -> string -> option A) (s : string) : option A :=
  match alts with
  | [] => None
  | p :: ps =>
      match p s with
      | Some (v, r) =>
          match k v r with
          | Some a => Some a
          | None => first_alt ps k s
          end
      | None => first_alt ps k s
      end
  end.

(** [re.match] of the regex [strptime] builds for ["%Y-%m-%d"]:
    [(?P<Y>\d\d\d\d)-(?P<m>...)-(?P<d>...)], giving year, month, day and
    the unmatched rest.  (Strings are byte strings here: [\d] is an ASCII
    digit.) *)
Definition strptime_match (s : string) : option (Z * Z * Z * string) :=
  bind_opt (digits 4 0 s) (fun '(y, r1) =>
  bind_opt (expect "-" r1) (fun r2 =>
  first_alt month_alts (fun m r3 =>
    bind_opt (expect "-" r3) (fun r4 =>
    first_alt day_alts (fun d r5 => Some (y, m, d, r5)) r4)) r2)).

(** [datetime.strptime(s, "%Y-%m-%d")] as year, month and day of the
    naive midnight it returns; [None] is its [ValueError]: no match,
    unconverted data left, or a date that does not exist (year 0, or a day
    past the end of the month). *)
Definition strptime_ymd (s : string) : option (Z * Z * Z) :=
  match strptime_match s with
  | None => None
  | Some (y, m, d, rest) =>
      match rest with
      | EmptyString =>
          if (1 <=? y)%Z && (d <=? days_in_month y m)%Z then Some (y, m, d) else None
      | String _ _ => None
      end
  end.

(** Midnight of a date, with [tzinfo=timezone.utc]. *)
Definition utc_midnight (y m d : Z) : datetime :=
  mk_datetime (days_from_civil y m d * 86400)%Z true.

(** [parse_date] (src/app.py lines 308-327); the [st.warning] of its
    [except ValueError] is shown on the page and the result is [None]. *)
Definition parse_date (date_input : date_input) : option datetime :=
  match date_input with
  | NoInput => None
  | DateValue y m d => Some (utc_midnight y m d)
  | StrInput s =>
      if negb (PyStr.truthy s) then None
      else
        match strptime_ymd s with
        | Some (y, m, d) => Some (utc_midnight y m d)
        | None => None
        end
  | OtherInput _ => None
  end.

(** Year, month and day of a day number counted from 1970-01-01 (the
    inverse of [days_from_civil]). *)
Definition civil_from_days (z : Z) : Z * Z * Z :=
  let z' := (z + 719468)%Z in
  let era := (z' / 146097)%Z in
  let doe := (z' - era * 146097)%Z in
  let yoe := ((doe - doe / 1460 + doe / 36524 - doe / 146096) / 365)%Z in
  let doy := (doe - (365 * yoe + yoe / 4 - yoe / 100))%Z in
  let mp := ((5 * doy + 2) / 153)%Z in
  let d := (doy - (153 * mp + 2) / 5 + 1)%Z in
  let m := if (mp <? 10)%Z then (mp + 3)%Z else (mp - 9)%Z in
  let y := (yoe + era * 400)%Z in
  ((if (m <=? 2)%Z then y + 1 else y)%Z, m, d).

(** [f"{x:04d}"] of a non-negative [int]. *)
Definition fmt04 (z : Z) : string :=
  let s := StreamlitTranscripts.int_str z in
  if (z <? 0)%Z then s
  else append (String.concat "" (repeat "0" (4 - String.length s))) s.

(** [str(d)] of a [date]: ["%04d-%02d-%02d"]. *)
Definition date_str (y m d : Z) : string :=
  fmt04 y ++ "-" ++ StreamlitTranscripts.fmt02 m ++ "-" ++ StreamlitTranscripts.fmt02 d.

(** [str(x)] of what [parse_date] is given. *)
Definition input_str (i : date_input) : string :=
  match i with
  | NoInput => "None"
  | DateValue y m d => date_str y m d
  | StrInput s => s
  | OtherInput r => r
  end.

(** [str(dt.date())] of an aware UTC datetime. *)
Definition dt_date_str (dt : datetime) : string :=
  let '(y, m, d) := civil_from_days (dt_seconds dt / 86400) in date_str y m d.

(** [datetime(e.year, e.month, e.day, 23, 59, 59, tzinfo=timezone.utc)]
    of an aware UTC datetime [e]. *)
Definition end_of_day (e : datetime) : datetime :=
  mk_datetime (dt_seconds e / 86400 * 86400 + 86399)%Z true.

(** The two markers that open the messages of [process_channel_search], as
    they are stored in src/app.py (UTF-8 bytes). *)
Definition hourglass_mark : string :=
  fold_right (fun n s => String (ascii_of_nat n) s) EmptyString
    [226; 128; 154; 195; 168; 226; 137; 165]%nat.

Definition error_mark : string :=
  fold_right (fun n s => String (ascii_of_nat n) s) EmptyString
    [226; 128; 154; 195; 185; 195; 165]%nat.

(** Where the generator is after its input checks: stopped, with what it
    yielded, or going on to the channel lookup with what it yielded and the
    date window. *)
Inductive search_start :=
  | Stopped (yields : list string)
  | Proceeds (yields : list string) (start_date end_date : datetime).

(** The input checks of [process_channel_search] (src/app.py lines
    390-428).  The two dates come from [parse_date], so both are aware and
    [start_date > end_date] compares their instants. *)
Definition start_search (channel_url_or_id : string)
    (start_date_input end_date_input : date_input) (keyword : string) : search_start :=
  let searching := hourglass_mark ++ " Searching... Please wait." in
  if negb (PyStr.truthy keyword) then
    Stopped [searching; error_mark ++ " Error: Please provide a keyword to search for."]
  else if negb (PyStr.truthy channel_url_or_id) then
    Stopped [searching; error_mark ++ " Error: Please provide a Channel URL or ID."]
  else
  let start_date := parse_date start_date_input in
  let end_date := match parse_date end_date_input with Some e => Some (end_of_day e) | None => None end in
  match start_date, end_date with
  | Some s, Some e =>
      if (dt_seconds e <? dt_seconds s)%Z then
        Stopped [searching; error_mark ++ " Error: Start Date (" ++ dt_date_str s
                 ++ ") must be before or the same as End Date (" ++ dt_date_str e ++ ")."]
      else Proceeds [searching] s e
  | _, _ =>
      Stopped [searching; error_mark ++ " Error: Invalid date format. Please use YYYY-MM-DD format. Start: "
               ++ input_str start_date_input ++ ", End: " ++ input_str end_date_input]
  end.

(** The date filter of the Streamlit page (src/app.py lines 582-591),
    with the bounds [parse_date] gave for the two [st.date_input]s: a
    publish date that does not parse is a warning; comparing a naive date
    with an aware bound raises [TypeError], which leaves the loop (the
    page's [except Exception] shows it).  The result is the warnings shown
    and the videos kept, as [(video_id, title, pub_date)]. *)
Fixpoint page_date_filter (start_date end_date : option datetime)
    (details : list video_detail) (kept : list (string * string * datetime))
    (warnings : list string) : list string * py (list (string * string * datetime)) :=
  match details with
  | [] => (warnings, Ret kept)
  | (video_id, pub_date_str, title) :: rest =>
      match parse_published pub_date_str with
      | None =>
          page_date_filter start_date end_date rest kept
            (warnings ++ ["Could not parse date for video " ++ video_id ++ ": " ++ pub_date_str])
      | Some pub_date =>
          match (match start_date with None => Ret true | Some s => dt_le s pub_date end) with
          | Raise e => (warnings, Raise e)
          | Ret false => page_date_filter start_date end_date rest kept warnings
          | Ret true =>
              match (match end_date with None => Ret true | Some e => dt_le pub_date e end) with
              | Raise e => (warnings, Raise e)
              | Ret false => page_date_filter start_date end_date rest kept warnings
              | Ret true =>
                  page_date_filter start_date end_date rest
                    (kept ++ [(video_id, title, pub_date)]) warnings
              end
          end
      end
  end.

End StreamlitDates.

(** * Proofs *)

(** ** Keyword Matcher *)

Lemma skipn_cons_nth (t : list segment) (i : nat) (x : segment) (r : list segment) :
  skipn i t = x :: r ->
  nth i t seg_default = x /\ skipn (S i) t = r /\ List.length t = i + S (List.length r).
Proof.
  revert i. induction t as [|y t IH]; intros i H.
  - destruct i; discriminate.
  - destruct i as [|i]; simpl in H.
    + inversion H; subst. simpl. auto.
    + destruct (IH i H) as (H1 & H2 & H3). simpl. auto.
Qed.

Lemma search_loop_match_at (t : list segment) (kl : string) (i : nat) (seg : segment) (r : list segment) :
  List.length t = i + S (List.length r) ->
  nth i t seg_default = seg ->
  mk_match (seg_start seg) (seg_text seg)
    (if Nat.ltb 0 i then seg_text (nth (i - 1) t seg_default) else "")
    (if Nat.ltb i (List.length t - 1) then seg_text (nth (i + 1) t seg_default) else "")
  = spec_match_at t i.
Proof.
  intros Hlen Hnth. unfold spec_match_at. rewrite Hnth. f_equal.
  - destruct i as [|j]; simpl; [reflexivity|]. now rewrite Nat.sub_0_r.
  - rewrite Nat.add_1_r.
    destruct (Nat.ltb_spec i (List.length t - 1)); destruct (Nat.eqb_spec (S i) (List.length t));
      first [reflexivity | lia].
Qed.

Lemma search_loop_spec (t : list segment) (kl : string) :
  forall rest i acc, skipn i t = rest ->
  search_loop t kl i rest acc
  = (acc ++ map (spec_match_at t)
             (filter (fun j => PyStr.contains kl (PyStr.lower (seg_text (nth j t seg_default))))
                (seq i (List.length rest))))%list.
Proof.
  induction rest as [|seg rest IH]; intros i acc Hs.
  - simpl. now rewrite app_nil_r.
  - destruct (skipn_cons_nth t i seg rest Hs) as (Hnth & Hs' & Hlen).
    simpl. rewrite Hnth.
    destruct (PyStr.contains kl (PyStr.lower (seg_text seg))) eqn:Hc.
    + rewrite (IH (S i) _ Hs'). simpl.
      rewrite (search_loop_match_at t kl i seg rest Hlen Hnth).
      now rewrite <- app_assoc.
    + exact (IH (S i) acc Hs').
Qed.

Lemma search_in_transcript_positions (transcript : list segment) (keyword : string) :
  search_in_transcript transcript keyword
  = map (spec_match_at transcript) (matching_positions transcript keyword).
Proof.
  unfold search_in_transcript, matching_positions.
  rewrite (search_loop_spec transcript (PyStr.lower keyword) transcript 0 [] eq_refl).
  reflexivity.
Qed.

(** C1: the matcher returns exactly one match per segment whose text contains
    the keyword case-insensitively, in transcript order, each built from the
    segment at that position and its neighbours ([""] at the boundaries). *)
Theorem search_in_transcript_spec (transcript : list segment) (keyword : string) :
  search_in_transcript transcript keyword
  = map (spec_match_at transcript) (matching_positions transcript keyword).
Proof. exact (search_in_transcript_positions transcript keyword). Qed.

Example search_in_transcript_context_middle :
  search_in_transcript
    [mk_segment "intro" 0; mk_segment "Hello World" 5; mk_segment "outro" 9] "world"
  = [mk_match 5 "Hello World" "intro" "outro"].
Proof. reflexivity. Qed.

Example search_in_transcript_context_first :
  search_in_transcript [mk_segment "WORLD news" 0; mk_segment "next" 3] "world"
  = [mk_match 0 "WORLD news" "" "next"].
Proof. reflexivity. Qed.

Lemma search_in_transcript_nil (keyword : string) :
  search_in_transcript [] keyword = [].
Proof. reflexivity. Qed.

Lemma contains_empty (hay : string) : PyStr.contains "" hay = true.
Proof. destruct hay; reflexivity. Qed.

(** With the empty keyword every segment matches: [""] is a substring of
    every string, and the service's matcher has no early return. *)
Lemma search_in_transcript_empty_keyword (transcript : list segment) :
  search_in_transcript transcript ""
  = map (spec_match_at transcript) (seq 0 (List.length transcript)).
Proof.
  rewrite search_in_transcript_positions. unfold matching_positions. f_equal.
  apply forallb_filter_id. apply forallb_forall. intros i _.
  apply contains_empty.
Qed.

(** C2 (the code at the failing input): matching the keyword [""] against a
    one-segment transcript returns one match in the service's matcher, while
    the sibling matcher of the Gradio version returns the empty list. *)
Theorem search_in_transcript_empty_keyword_nonempty :
  search_in_transcript [mk_segment "Hello World" 0] ""
  = [mk_match 0 "Hello World" "" ""]
  /\ search_in_transcript_gradio [mk_segment "Hello World" 0] "" = []
  /\ (forall keyword, search_in_transcript [] keyword = []).
Proof.
  split; [reflexivity|]. split; [reflexivity|].
  exact search_in_transcript_nil.
Qed.

(** C9: two invocations of the matcher on the same transcript and keyword
    return the same ordered list, the one fixed by the transcript and the
    keyword alone. *)
Theorem search_in_transcript_deterministic (transcript : list segment) (keyword : string) :
  let first := search_in_transcript transcript keyword in
  let second := search_in_transcript transcript keyword in
  first = second
  /\ first = map (spec_match_at transcript) (matching_positions transcript keyword).
Proof.
  simpl. split; [reflexivity|]. apply search_in_transcript_positions.
Qed.

(** ** Channel Resolver *)

Module ResolverFacts.
Import Resolver.

Example resolve_channel_url :
  resolve_channel_id "https://www.youtube.com/channel/UCabcdefghijklmnopqrstuv"
  = Resolved (Some "UCabcdefghijklmnopqrstuv").
Proof. reflexivity. Qed.

Example resolve_handle :
  resolve_channel_id "@somehandle" = LookupName "somehandle".
Proof. reflexivity. Qed.

Example resolve_vanity :
  resolve_channel_id "https://youtube.com/c/SomeName" = LookupName "SomeName"
  /\ extract_channel_id "https://youtube.com/user/old_name" = LookupName "old_name".
Proof. split; reflexivity. Qed.

Example resolve_fallback :
  resolve_channel_id "Some Channel" = LookupName "Some Channel"
  /\ extract_channel_id "Some Channel" = Resolved None.
Proof. split; reflexivity. Qed.

Lemma id_tail_all_url_safe (w : string) :
  all_chars url_safe w = true -> id_tail (String.length w) w = true.
Proof.
  induction w as [|c w IH]; simpl; [reflexivity|].
  intros H. apply andb_prop in H as [Hc Hw]. rewrite Hc. simpl. exact (IH Hw).
Qed.

Lemma direct_id_match_uc (w : string) :
  String.length w = 22 -> all_chars url_safe w = true -> direct_id_match ("UC" ++ w) = true.
Proof.
  intros Hlen Hall. transitivity (id_tail 22 w); [reflexivity|].
  rewrite <- Hlen. exact (id_tail_all_url_safe w Hall).
Qed.

(** C6: a string of the form [UC] followed by 22 characters of
    [[a-zA-Z0-9_-]] (24 characters in all) resolves to itself, with no name
    lookup, in both resolver chains. *)
Theorem resolve_channel_id_direct (w : string) :
  String.length w = 22 -> all_chars url_safe w = true ->
  resolve_channel_id ("UC" ++ w) = Resolved (Some ("UC" ++ w))
  /\ extract_channel_id ("UC" ++ w) = Resolved (Some ("UC" ++ w)).
Proof.
  intros Hlen Hall.
  unfold resolve_channel_id, extract_channel_id.
  rewrite (direct_id_match_uc w Hlen Hall). simpl. split; reflexivity.
Qed.

Lemma resolve_channel_id_direct_witness :
  String.length "abcdefghijklmnopqrst_-" = 22
  /\ all_chars url_safe "abcdefghijklmnopqrst_-" = true
  /\ resolve_channel_id ("UC" ++ "abcdefghijklmnopqrst_-")
     = Resolved (Some ("UC" ++ "abcdefghijklmnopqrst_-"))
  /\ extract_channel_id ("UC" ++ "abcdefghijklmnopqrst_-")
     = Resolved (Some ("UC" ++ "abcdefghijklmnopqrst_-")).
Proof.
  split; [reflexivity|]. split; [reflexivity|].
  apply (resolve_channel_id_direct "abcdefghijklmnopqrst_-"); reflexivity.
Defined.

(** C10: the empty reference resolves to [None] at once, with no pattern
    match and no name lookup, in both resolver chains. *)
Theorem resolve_channel_id_empty :
  resolve_channel_id "" = Resolved None /\ extract_channel_id "" = Resolved None.
Proof. split; reflexivity. Qed.

End ResolverFacts.

Module LookupFacts.
Import Resolver.

(** C7 (counterexample): with a configured key, a remote failure of the
    Streamlit lookup is raised as [YouTubeChannelError] instead of becoming
    [None]; and in the service lookup a remote failure, such as the
    [HttpError] an invalid key causes, is swallowed rather than raised. *)
Lemma resolve_name_failure_not_swallowed :
  resolve_name_to_channel_id_sync (Some "KEY") (SearchRaises HttpError) <> Ret None
  /\ resolve_name_to_channel_id (SearchRaises HttpError) = Ret None.
Proof. split; [discriminate | reflexivity]. Qed.

(** C7 (amended): the service lookup never raises: it returns the first
    item's channel ID, and [None] when there is no item, when the item has
    no channel ID or when the remote call raises anything.  The Streamlit
    lookup raises [ValueError] for a missing or empty key before any call,
    returns [None] when the search yields no items, and raises
    [YouTubeChannelError] when the remote call fails. *)
Theorem resolve_name_to_channel_id_outcomes :
  (forall response, exists r, resolve_name_to_channel_id response = Ret r)
  /\ (forall e, resolve_name_to_channel_id (SearchRaises e) = Ret None)
  /\ resolve_name_to_channel_id (SearchOk []) = Ret None
  /\ (forall id title rest,
        resolve_name_to_channel_id (SearchOk (mk_search_item (Some id) title :: rest))
        = Ret (Some id))
  /\ (forall title rest,
        resolve_name_to_channel_id (SearchOk (mk_search_item None title :: rest)) = Ret None)
  /\ (forall response,
        resolve_name_to_channel_id_sync None response
        = Raise (ValueError "YouTube API Key is not configured.")
        /\ resolve_name_to_channel_id_sync (Some "") response
           = Raise (ValueError "YouTube API Key is not configured."))
  /\ (forall c key, resolve_name_to_channel_id_sync (Some (String c key)) (SearchOk []) = Ret None)
  /\ (forall c key e, exists msg,
        resolve_name_to_channel_id_sync (Some (String c key)) (SearchRaises e)
        = Raise (YouTubeChannelError msg)).
Proof.
  split.
  { intros [items|e]; [destruct items as [|[[id|] t] rest]|]; eexists; reflexivity. }
  split; [reflexivity|]. split; [reflexivity|]. split; [reflexivity|].
  split; [reflexivity|].
  split; [split; reflexivity|]. split; [reflexivity|].
  intros c key e. destruct e; eexists; reflexivity.
Qed.

End LookupFacts.

(** ** Paginated Video Lister *)

Module ListerFacts.
Import Lister.






(** A playlist of two pages of 50 and 30 playable videos. *)
Definition sample_item (n : nat) : raw_item :=
  mk_raw_item (Some "vid") (Some "2024-01-01T00:00:00Z") (Some "title") None.

Definition sample_playlist (calls : nat) (token : option string) : page_response :=
  match token with
  | None => PageOk (map sample_item (seq 0 50)) (Some "page2")
  | Some _ => PageOk (map sample_item (seq 0 30)) None
  end.


(** The last page overshoots the budget of 60 (50 + 30 items) and the list
    is cut to 60 items. *)
Example fetch_all_video_details_truncates :
  match fetch_all_video_details (Some "KEY") 60 sample_playlist 5 with
  | Some (Ret videos, _) => List.length videos = 60
  | _ => False
  end.
Proof. vm_compute. reflexivity. Qed.

End ListerFacts.

Module DropFacts.
Import Lister.

Definition detail_present (d : video_detail) : Prop :=
  let '(video_id, published_at, _) := d in
  PyStr.truthy video_id = true /\ PyStr.truthy published_at = true.

Lemma keep_details_present (items : list raw_item) : Forall detail_present (keep_details items).
Proof.
  induction items as [|item rest IH]; simpl; [constructor|].
  destruct (ri_video_id item) as [v|], (ri_published_at item) as [p|], (ri_title item) as [t|];
    try exact IH.
  destruct (PyStr.truthy v) eqn:Hv, (PyStr.truthy p) eqn:Hp, (PyStr.truthy t); simpl;
    try exact IH.
  constructor; [split; assumption | exact IH].
Qed.

Lemma fetch_all_loop_present (api_key : option string) (max_videos : Z)
    (playlist_page : nat -> option string -> page_response) :
  forall fuel calls all_details token attempt videos trace,
  fetch_all_loop api_key max_videos playlist_page fuel calls all_details token attempt
    = Some (Ret videos, trace) ->
  Forall detail_present all_details -> Forall detail_present videos.
Proof.
  induction fuel as [|fuel IH]; intros calls acc token attempt videos trace H Hacc;
    simpl in H; [discriminate|].
  destruct (playlist_page calls token) as [items next|e] eqn:Hpage;
    unfold fetch_video_details_page in H;
    destruct (negb (PyStr.truthy_opt api_key)); try discriminate.
  - assert (Hacc' : Forall detail_present (acc ++ keep_details items)%list)
      by (apply Forall_app; split; [exact Hacc | apply keep_details_present]).
    destruct (Z.leb max_videos (Z.of_nat (List.length (acc ++ keep_details items)))).
    + inversion H; subst. exact Hacc'.
    + destruct (negb (PyStr.truthy_opt next)).
      * inversion H; subst. exact Hacc'.
      * destruct (fetch_all_loop api_key max_videos playlist_page fuel (S calls)
                    (acc ++ keep_details items) next 0) as [[r' tr']|] eqn:E; [|discriminate].
        simpl in H. inversion H; subst. exact (IH _ _ _ _ _ _ E Hacc').
  - destruct e; try discriminate;
    destruct (match attempt with S (S _) => true | _ => false end); try discriminate;
    (destruct (fetch_all_loop api_key max_videos playlist_page fuel (S calls)
                 acc token (S attempt)) as [[r' tr']|] eqn:E; [|discriminate];
     simpl in H; inversion H; subst; exact (IH _ _ _ _ _ _ E Hacc)).
Qed.

(** In src/app.py every detail the listing returns has a non-empty video ID
    and a non-empty publish timestamp. *)
Lemma fetch_all_video_details_present (api_key : option string) (max_videos : Z)
    (playlist_page : nat -> option string -> page_response) (fuel : nat)
    (videos : list video_detail) (trace : list nat) :
  fetch_all_video_details api_key max_videos playlist_page fuel = Some (Ret videos, trace) ->
  Forall detail_present videos.
Proof.
  intros H. unfold fetch_all_video_details in H.
  destruct (fetch_all_loop api_key max_videos playlist_page fuel 0 [] None 0)
    as [[[all_details|e] tr]|] eqn:E; try discriminate.
  inversion H; subst.
  assert (Hall : Forall detail_present all_details)
    by exact (fetch_all_loop_present _ _ _ _ _ _ _ _ _ _ E (Forall_nil _)).
  unfold py_slice_to. destruct (Z.leb 0 max_videos);
    apply Forall_forall; intros x Hx; apply (proj1 (Forall_forall _ _) Hall);
    match type of Hx with In _ (firstn ?n _) =>
      rewrite <- (firstn_skipn n all_details); apply in_or_app; left; exact Hx end.
Qed.

(** An item with no [contentDetails.videoId]. *)
Definition item_without_id : raw_item :=
  mk_raw_item None (Some "2024-01-01T00:00:00Z") (Some "Deleted video") None.

(** C8 (the code at the failing input): [YouTubeService.fetch_videos] keeps
    the item with no video ID as a video whose ["id"] is [None], while the
    page helper of src/app.py drops it. *)
Theorem fetch_videos_keeps_item_without_id :
  fetch_videos 5 (fun _ _ _ => PageOk [item_without_id] None) 3
  = Some (Ret [mk_video_dict None (Some "Deleted video") (Some "2024-01-01T00:00:00Z") None])
  /\ fetch_video_details_page (Some "KEY") (PageOk [item_without_id] None) = Ret ([], None).
Proof. split; reflexivity. Qed.

End DropFacts.

Module FetchVideosFacts.
Import Lister.

(** [YouTubeService.fetch_videos] has no final slice: its list stays within
    the budget because each request asks for at most the missing number of
    items, provided the platform honours [maxResults]. *)
Lemma fetch_videos_loop_bounded (max_videos : Z)
    (playlist_items : nat -> option string -> Z -> page_response)
    (Hplatform : forall n token k items next,
        playlist_items n token k = PageOk items next -> (Z.of_nat (List.length items) <= k)%Z) :
  forall fuel calls videos token result,
  fetch_videos_loop max_videos playlist_items fuel calls videos token = Some (Ret result) ->
  (0 <= max_videos)%Z -> (Z.of_nat (List.length videos) <= max_videos)%Z ->
  (Z.of_nat (List.length result) <= max_videos)%Z.
Proof.
  induction fuel as [|fuel IH]; intros calls videos token result H Hn Hv; simpl in H.
  - destruct (Z.ltb_spec (Z.of_nat (List.length videos)) max_videos); [discriminate|].
    inversion H; subst. exact Hv.
  - destruct (Z.ltb_spec (Z.of_nat (List.length videos)) max_videos) as [Hlt|Hge].
    + destruct (playlist_items calls token (Z.min 50 (max_videos - Z.of_nat (List.length videos))))
        as [items next|e] eqn:Hpage; [|discriminate].
      pose proof (Hplatform _ _ _ _ _ Hpage) as Hitems.
      assert (Hv' : (Z.of_nat (List.length (videos ++ map to_video_dict items)) <= max_videos)%Z)
        by (rewrite length_app, length_map; lia).
      destruct (negb (PyStr.truthy_opt next)).
      * inversion H; subst. exact Hv'.
      * exact (IH _ _ _ _ H Hn Hv').
    + inversion H; subst. exact Hv.
Qed.

End FetchVideosFacts.

(** ** Search Orchestrator *)

Module CollectFacts.
Import Lister Orchestrator.

Lemma make_search_result_fields (video : video_dict) (matches : list match_result) (r : search_result) :
  make_search_result video matches = Ret r ->
  sr_matches r = matches /\ vd_id video = Some (sr_video_id r).
Proof.
  unfold make_search_result.
  destruct (vd_id video), (vd_title video), (vd_published_at video), (vd_thumbnail video);
    intros H; try discriminate.
  inversion H; subst. simpl. auto.
Qed.

Lemma collect_results_origin (keyword : string) (get_transcript : nat -> option string -> list segment) :
  forall videos n results out,
  collect_results keyword get_transcript n videos results = Ret out ->
  forall r, In r out ->
  In r results
  \/ (sr_matches r <> []
      /\ exists i video, nth_error videos i = Some video
         /\ vd_id video = Some (sr_video_id r)
         /\ sr_matches r = search_in_transcript (get_transcript (n + i) (vd_id video)) keyword).
Proof.
  induction videos as [|video rest IH]; intros n results out H r Hr; simpl in H.
  - inversion H; subst. left. exact Hr.
  - assert (Hshift : forall r,
              (sr_matches r <> []
               /\ exists i v, nth_error rest i = Some v /\ vd_id v = Some (sr_video_id r)
                  /\ sr_matches r = search_in_transcript (get_transcript (S n + i) (vd_id v)) keyword) ->
              sr_matches r <> []
              /\ exists i v, nth_error (video :: rest) i = Some v /\ vd_id v = Some (sr_video_id r)
                 /\ sr_matches r = search_in_transcript (get_transcript (n + i) (vd_id v)) keyword).
    { intros r' (Hne & i & v & Hi & Hid & Hm). split; [exact Hne|].
      exists (S i), v. simpl. rewrite <- plus_n_Sm. auto. }
    destruct (get_transcript n (vd_id video)) as [|seg segs] eqn:Ht.
    + destruct (IH _ _ _ H r Hr) as [Hin|Hor]; [left; exact Hin | right; exact (Hshift r Hor)].
    + destruct (search_in_transcript (seg :: segs) keyword) as [|m ms] eqn:Hm.
      * destruct (IH _ _ _ H r Hr) as [Hin|Hor]; [left; exact Hin | right; exact (Hshift r Hor)].
      * destruct (make_search_result video (m :: ms)) as [r'|e] eqn:Hmk; [|discriminate].
        destruct (IH _ _ _ H r Hr) as [Hin|Hor]; [|right; exact (Hshift r Hor)].
        apply in_app_or in Hin as [Hin|[Heq|[]]]; [left; exact Hin|].
        subst r'. right.
        destruct (make_search_result_fields _ _ _ Hmk) as [Hmatches Hid].
        split; [rewrite Hmatches; discriminate|].
        exists 0, video. rewrite Nat.add_0_r, Ht, Hm. auto.
Qed.

(** C3: every result the search loop returns has a non-empty [matches]
    list, equal to the matches of the transcript fetched for one of the
    listed videos with that video ID; so a video whose transcript yields no
    match contributes no result. *)
Theorem collect_results_nonempty (keyword : string)
    (get_transcript : nat -> option string -> list segment)
    (videos : list video_dict) (results : list search_result) :
  collect_results keyword get_transcript 0 videos [] = Ret results ->
  forall r, In r results ->
  sr_matches r <> []
  /\ exists i video, nth_error videos i = Some video
     /\ vd_id video = Some (sr_video_id r)
     /\ sr_matches r = search_in_transcript (get_transcript i (vd_id video)) keyword.
Proof.
  intros H r Hr.
  destruct (collect_results_origin keyword get_transcript videos 0 [] results H r Hr)
    as [[]|Hor].
  exact Hor.
Qed.

Definition sample_video (id : string) : video_dict :=
  mk_video_dict (Some id) (Some "title") (Some "2024-01-01T00:00:00Z") (Some "thumb").

Definition sample_transcripts (n : nat) (id : option string) : list segment :=
  match n with
  | 0 => [mk_segment "no hit here" 0]
  | _ => [mk_segment "before" 0; mk_segment "the Keyword" 4; mk_segment "after" 8]
  end.

Definition sample_result : search_result :=
  mk_search_result "v2" "title" "2024-01-01T00:00:00Z" "thumb"
    [mk_match 4 "the Keyword" "before" "after"].

Lemma collect_results_nonempty_witness :
  collect_results "keyword" sample_transcripts 0 [sample_video "v1"; sample_video "v2"] []
    = Ret [sample_result]
  /\ sr_matches sample_result <> [].
Proof.
  assert (E : collect_results "keyword" sample_transcripts 0 [sample_video "v1"; sample_video "v2"] []
              = Ret [sample_result]) by reflexivity.
  split; [exact E|].
  apply (proj1 (collect_results_nonempty "keyword" sample_transcripts _ _ E sample_result
                  (or_introl eq_refl))).
Defined.

End CollectFacts.

(** ** Date Filter *)

Module DateFilterFacts.
Import Lister Dates Orchestrator.

Definition kept_by (start_date end_date : datetime) (detail : video_detail) : bool :=
  match date_step start_date end_date detail with inl (Some _) => true | _ => false end.

Definition warned_by (start_date end_date : datetime) (detail : video_detail) : bool :=
  match date_step start_date end_date detail with inr _ => true | _ => false end.

Lemma date_step_keeps_itself (start_date end_date : datetime) (detail d : video_detail) :
  date_step start_date end_date detail = inl (Some d) -> d = detail.
Proof.
  destruct detail as [[video_id pub] title]. unfold date_step.
  destruct (parse_published pub) as [pd|]; [|discriminate].
  destruct (dt_le start_date pd) as [[]|]; try discriminate.
  destruct (dt_le pd end_date) as [[]|]; try discriminate.
  intros H. inversion H. reflexivity.
Qed.

Lemma date_filter_loop_spec (start_date end_date : datetime) :
  forall details filtered warnings,
  let '(f, w) := date_filter_loop start_date end_date details filtered warnings in
  f = (filtered ++ filter (kept_by start_date end_date) details)%list
  /\ List.length w = List.length warnings + List.length (filter (warned_by start_date end_date) details).
Proof.
  induction details as [|detail rest IH]; intros filtered warnings; simpl.
  - rewrite app_nil_r. split; [reflexivity | lia].
  - unfold kept_by at 1, warned_by at 1.
    destruct (date_step start_date end_date detail) as [[d|]|w] eqn:Hs.
    + rewrite (date_step_keeps_itself _ _ _ _ Hs).
      specialize (IH (filtered ++ [detail])%list warnings).
      destruct (date_filter_loop start_date end_date rest (filtered ++ [detail])%list warnings) as [f w].
      destruct IH as [Hf Hw]. rewrite <- app_assoc in Hf. split; [exact Hf | exact Hw].
    + specialize (IH filtered warnings).
      destruct (date_filter_loop start_date end_date rest filtered warnings) as [f w].
      exact IH.
    + specialize (IH filtered (warnings ++ [w])%list).
      destruct (date_filter_loop start_date end_date rest filtered (warnings ++ [w])%list) as [f w'].
      destruct IH as [Hf Hw]. rewrite length_app in Hw. simpl in Hw.
      split; [exact Hf | simpl; lia].
Qed.

(** In src/app.py each video is filtered on its own: the surviving list is
    the videos kept by their own date test, and there is one warning per
    video whose date fails to parse or to compare, which is never kept. *)
Lemma app_date_filter_per_video (start_date end_date : datetime) (details : list video_detail) :
  fst (app_date_filter start_date end_date details)
    = filter (kept_by start_date end_date) details
  /\ List.length (snd (app_date_filter start_date end_date details))
     = List.length (filter (warned_by start_date end_date) details)
  /\ (forall video_id pub title, parse_published pub = None ->
        kept_by start_date end_date (video_id, pub, title) = false
        /\ warned_by start_date end_date (video_id, pub, title) = true).
Proof.
  unfold app_date_filter.
  pose proof (date_filter_loop_spec start_date end_date details [] []) as Hspec.
  destruct (date_filter_loop start_date end_date details [] []) as [f w].
  destruct Hspec as [Hf Hw]. simpl.
  split; [exact Hf|]. split; [exact Hw|].
  intros video_id pub title Hp. unfold kept_by, warned_by, date_step. rewrite Hp. auto.
Qed.

Definition video_bad_date : video_dict :=
  mk_video_dict (Some "bad") (Some "t1") (Some "not-a-date") (Some "th1").

Definition video_old : video_dict :=
  mk_video_dict (Some "old") (Some "t2") (Some "2020-01-01T00:00:00Z") (Some "th2").

Definition video_no_date : video_dict :=
  mk_video_dict (Some "nodate") (Some "t3") None (Some "th3").

Definition utc_2023_01_01 : datetime := mk_datetime 1672531200 true.
Definition utc_2023_12_31_end : datetime := mk_datetime 1704067199 true.

(** C4 (the code at the failing input): in the API date filter one
    unparseable [publishedAt] makes the whole comprehension raise
    [ValueError], the [except ValueError] meant for the cutoff swallows it,
    and the unfiltered, uncut list goes on (the 2020 video survives a 2023
    cutoff and [max_videos = 1] is ignored); a missing [publishedAt] raises
    [AttributeError], which fails the request.  The Streamlit loop on the
    same two dates keeps neither video and records one warning. *)
Theorem api_date_filter_bad_timestamp :
  api_date_filter (Some "2023-01-01T00:00:00Z") 1 [video_bad_date; video_old]
    = Ret [video_bad_date; video_old]
  /\ api_date_filter (Some "2023-01-01T00:00:00Z") 1 [video_no_date; video_old]
     = Raise AttributeError
  /\ fst (app_date_filter utc_2023_01_01 utc_2023_12_31_end
            [("bad", "not-a-date", "t1"); ("old", "2020-01-01T00:00:00Z", "t2")]) = []
  /\ List.length (snd (app_date_filter utc_2023_01_01 utc_2023_12_31_end
            [("bad", "not-a-date", "t1"); ("old", "2020-01-01T00:00:00Z", "t2")])) = 1.
Proof. vm_compute. repeat split. Qed.

End DateFilterFacts.

(** ** Channel Resolver: further properties *)

Module ResolverExtra.
Import Resolver.

Lemma starts_with_app (p x : string) : PyStr.starts_with p (p ++ x) = true.
Proof. induction p as [|c p IH]; simpl; [reflexivity|]. rewrite Ascii.eqb_refl. exact IH. Qed.

Lemma starts_with_app_l (p r t : string) :
  PyStr.starts_with (p ++ r) t = true -> PyStr.starts_with p t = true.
Proof.
  revert t. induction p as [|c p IH]; intros t H; simpl; [reflexivity|].
  destruct t as [|d t]; simpl in H; [discriminate|].
  apply andb_prop in H as [H1 H2]. rewrite H1. exact (IH t H2).
Qed.

Lemma drop_app (p x : string) : drop (String.length p) (p ++ x) = x.
Proof. induction p as [|c p IH]; simpl; [reflexivity | exact IH]. Qed.

Lemma take_url_app (w q : string) :
  all_chars url_safe w = true -> take_url (String.length w) (w ++ q) = Some w.
Proof.
  induction w as [|c w IH]; simpl; [reflexivity|].
  intros H. apply andb_prop in H as [Hc Hw]. rewrite Hc, (IH Hw). reflexivity.
Qed.

Lemma take_url_shape (n : nat) (s w : string) :
  take_url n s = Some w -> String.length w = n /\ all_chars url_safe w = true.
Proof.
  revert s w. induction n as [|n IH]; intros s w H; simpl in H.
  - inversion H; subst. auto.
  - destruct s as [|c s]; [discriminate|].
    destruct (url_safe c) eqn:Hc; [|discriminate].
    destruct (take_url n s) as [w'|] eqn:E; [|discriminate].
    inversion H; subst. destruct (IH _ _ E) as [Hl Ha]. simpl. rewrite Hc, Hl, Ha. auto.
Qed.

Lemma id_tail_shape (n : nat) (s : string) :
  id_tail n s = true ->
  exists w, String.length w = n /\ all_chars url_safe w = true /\ (s = w \/ s = w ++ String "010" EmptyString).
Proof.
  revert s. induction n as [|n IH]; intros s H.
  - exists "". split; [reflexivity|]. split; [reflexivity|].
    destruct s as [|c [|d s]]; [left; reflexivity| |discriminate].
    right. simpl in H. apply Ascii.eqb_eq in H. subst. reflexivity.
  - destruct s as [|c s]; [discriminate|]. simpl in H.
    apply andb_prop in H as [Hc Hs]. destruct (IH s Hs) as (w & Hl & Ha & Heq).
    exists (String c w). simpl. rewrite Hc, Ha, Hl. split; [reflexivity|]. split; [reflexivity|].
    destruct Heq as [Heq|Heq]; rewrite Heq; [left | right]; reflexivity.
Qed.

Lemma re_search_some (here : string -> option string) (s g : string) :
  re_search here s = Some g -> exists t, here t = Some g.
Proof.
  induction s as [|c s IH]; simpl; destruct (here _) eqn:E; intros H;
    try (inversion H; subst; eexists; exact E); try discriminate.
  exact (IH H).
Qed.

Lemma re_search_none (here : string -> option string) (p s : string) :
  (forall t g, here t = Some g -> PyStr.starts_with p t = true) ->
  PyStr.contains p s = false -> re_search here s = None.
Proof.
  intros Hhere. induction s as [|c s IH]; simpl; intros Hc;
    apply orb_false_iff in Hc as [Hst Hrest];
    destruct (here _) as [g|] eqn:E; try (rewrite (Hhere _ _ E) in Hst; discriminate).
  - reflexivity.
  - exact (IH Hrest).
Qed.

Lemma re_search_contains (here : string -> option string) (p s g : string) :
  (forall t g, here t = Some g -> PyStr.starts_with p t = true) ->
  re_search here s = Some g -> PyStr.contains p s = true.
Proof.
  intros Hhere H. destruct (PyStr.contains p s) eqn:Hc; [reflexivity|].
  rewrite (re_search_none here p s Hhere Hc) in H. discriminate.
Qed.

Lemma starts_with_all_chars (q : ascii -> bool) (p t : string) :
  PyStr.starts_with p t = true -> all_chars q t = true -> all_chars q p = true.
Proof.
  revert t. induction p as [|c p IH]; intros t H Ht; [reflexivity|].
  destruct t as [|d t]; simpl in H; [discriminate|].
  apply andb_prop in H as [H1 H2]. apply Ascii.eqb_eq in H1. subst d.
  simpl in Ht |- *. apply andb_prop in Ht as [Hd Ht]. rewrite Hd. exact (IH t H2 Ht).
Qed.

Definition no_slash (c : ascii) : bool := negb (Ascii.eqb c "/").

Lemma contains_no_slash (p s : string) :
  all_chars no_slash p = false -> all_chars no_slash s = true -> PyStr.contains p s = false.
Proof.
  intros Hp. induction s as [|c s IH]; intros Hs; simpl.
  - destruct p as [|d p]; [discriminate | reflexivity].
  - apply orb_false_iff. split.
    + destruct (PyStr.starts_with p (String c s)) eqn:E; [|reflexivity].
      rewrite (starts_with_all_chars _ _ _ E Hs) in Hp. discriminate.
    + simpl in Hs. apply andb_prop in Hs as [_ Hs]. exact (IH Hs).
Qed.

Lemma channel_url_here_starts (t g : string) :
  channel_url_here t = Some g -> PyStr.starts_with "youtube.com/" t = true.
Proof.
  unfold channel_url_here. destruct (PyStr.starts_with "youtube.com/channel/UC" t) eqn:E;
    [|discriminate]. intros _. exact (starts_with_app_l "youtube.com/" "channel/UC" t E).
Qed.

Lemma handle_here_url_starts (t g : string) :
  handle_here_url t = Some g -> PyStr.starts_with "youtube.com/" t = true.
Proof.
  unfold handle_here_url. destruct (PyStr.starts_with "youtube.com/@" t) eqn:E;
    [|discriminate]. intros _. exact (starts_with_app_l "youtube.com/" "@" t E).
Qed.

Lemma vanity_here_starts (t g : string) :
  vanity_here t = Some g -> PyStr.starts_with "youtube.com/" t = true.
Proof.
  unfold vanity_here. destruct (PyStr.starts_with "youtube.com/" t); [reflexivity | discriminate].
Qed.

Lemma nonempty_handle_truthy (s h : string) : nonempty_handle s = Some h -> PyStr.truthy h = true.
Proof.
  unfold nonempty_handle. destruct (PyStr.truthy (take_handle s)) eqn:E; [|discriminate].
  intros H. inversion H; subst. exact E.
Qed.

Lemma handle_here_opt_prefix_truthy (t h : string) :
  handle_here_opt_prefix t = Some h -> PyStr.truthy h = true.
Proof.
  unfold handle_here_opt_prefix.
  destruct (if PyStr.starts_with "youtube.com/@" t then nonempty_handle (drop 13 t) else None)
    as [h'|] eqn:E.
  - intros H. inversion H; subst.
    destruct (PyStr.starts_with "youtube.com/@" t); [|discriminate].
    exact (nonempty_handle_truthy _ _ E).
  - destruct (PyStr.starts_with "@" t); [|discriminate]. apply nonempty_handle_truthy.
Qed.

Lemma handle_here_url_truthy (t h : string) : handle_here_url t = Some h -> PyStr.truthy h = true.
Proof.
  unfold handle_here_url. destruct (PyStr.starts_with "youtube.com/@" t); [|discriminate].
  apply nonempty_handle_truthy.
Qed.

Lemma vanity_here_truthy (t h : string) : vanity_here t = Some h -> PyStr.truthy h = true.
Proof.
  unfold vanity_here. destruct (PyStr.starts_with "youtube.com/" t); [|discriminate].
  destruct (if PyStr.starts_with "c/" (drop 12 t) then nonempty_handle (drop 2 (drop 12 t)) else None)
    as [h'|] eqn:E.
  - intros H. inversion H; subst.
    destruct (PyStr.starts_with "c/" (drop 12 t)); [|discriminate].
    exact (nonempty_handle_truthy _ _ E).
  - destruct (PyStr.starts_with "user/" (drop 12 t)); [|discriminate]. apply nonempty_handle_truthy.
Qed.

Lemma channel_url_here_shape (t g : string) :
  channel_url_here t = Some g ->
  exists w, String.length w = 22 /\ all_chars url_safe w = true /\ g = "UC" ++ w.
Proof.
  unfold channel_url_here. destruct (PyStr.starts_with "youtube.com/channel/UC" t); [|discriminate].
  destruct (take_url 22 (drop 22 t)) as [w|] eqn:E; [|discriminate].
  intros H. inversion H; subst. destruct (take_url_shape _ _ _ E) as [Hl Ha]. eauto.
Qed.

Lemma direct_id_match_shape (s : string) :
  direct_id_match s = true ->
  exists w, String.length w = 22 /\ all_chars url_safe w = true /\ (s = "UC" ++ w \/ s = "UC" ++ w ++ String "010" EmptyString).
Proof.
  destruct s as [|c1 [|c2 rest]]; try discriminate. simpl.
  intros H. apply andb_prop in H as [H12 Hr]. apply andb_prop in H12 as [H1 H2].
  apply Ascii.eqb_eq in H1, H2. subst.
  destruct (id_tail_shape 22 rest Hr) as (w & Hl & Ha & [Heq|Heq]); subst rest; exists w; auto.
Qed.

Lemma re_search_cons (here : string -> option string) (c : ascii) (s : string) :
  here (String c s) = None -> re_search here (String c s) = re_search here s.
Proof. intros H. simpl. rewrite H. reflexivity. Qed.

Lemma re_search_hit (here : string -> option string) (s g : string) :
  here s = Some g -> re_search here s = Some g.
Proof. intros H. destruct s; simpl; rewrite H; reflexivity. Qed.

Lemma id_tail_newline (w : string) :
  all_chars url_safe w = true -> id_tail (String.length w) (w ++ String "010" EmptyString) = true.
Proof.
  induction w as [|c w IH]; simpl; [reflexivity|].
  intros H. apply andb_prop in H as [Hc Hw]. rewrite Hc. exact (IH Hw).
Qed.

(** Whenever either resolver answers with a channel ID without a lookup,
    the ID is [UC] followed by 22 characters of [[a-zA-Z0-9_-]], possibly
    followed by a newline (Python's [$] also matches before a final newline). *)
Theorem resolved_id_shape (s id : string) :
  (resolve_channel_id s = Resolved (Some id) \/ extract_channel_id s = Resolved (Some id)) ->
  exists w, String.length w = 22 /\ all_chars url_safe w = true
    /\ (id = "UC" ++ w \/ id = "UC" ++ w ++ String "010" EmptyString).
Proof.
  unfold resolve_channel_id, extract_channel_id.
  destruct (negb (PyStr.truthy s)); [intros [H|H]; discriminate|].
  destruct (direct_id_match s) eqn:Hd.
  - intros [H|H]; inversion H; subst; exact (direct_id_match_shape id Hd).
  - destruct (re_search channel_url_here s) as [g|] eqn:Hc.
    + intros [H|H]; inversion H; subst;
        destruct (re_search_some _ _ _ Hc) as [t Ht];
        destruct (channel_url_here_shape _ _ Ht) as (w & Hl & Ha & ->); eauto.
    + intros [H|H].
      * destruct (re_search handle_here_opt_prefix s); [discriminate|].
        destruct (re_search vanity_here s); discriminate.
      * destruct (re_search handle_here_url s); [discriminate|].
        destruct (re_search vanity_here s); discriminate.
Qed.

Lemma resolved_id_shape_witness :
  exists w, String.length w = 22 /\ all_chars url_safe w = true
    /\ ("UCabcdefghijklmnopqrstuv" = "UC" ++ w
        \/ "UCabcdefghijklmnopqrstuv" = "UC" ++ w ++ String "010" EmptyString).
Proof.
  apply (resolved_id_shape "https://youtube.com/channel/UCabcdefghijklmnopqrstuv/videos").
  left. reflexivity.
Defined.

(** The direct-ID test also accepts an ID followed by one newline, and both
    resolvers then return the input unchanged, newline included. *)
Theorem resolve_direct_id_trailing_newline (w : string) :
  String.length w = 22 -> all_chars url_safe w = true ->
  resolve_channel_id ("UC" ++ w ++ String "010" EmptyString)
    = Resolved (Some ("UC" ++ w ++ String "010" EmptyString))
  /\ extract_channel_id ("UC" ++ w ++ String "010" EmptyString)
    = Resolved (Some ("UC" ++ w ++ String "010" EmptyString)).
Proof.
  intros Hl Ha.
  assert (Hd : direct_id_match ("UC" ++ w ++ String "010" EmptyString) = true).
  { transitivity (id_tail 22 (w ++ String "010" EmptyString)); [reflexivity|].
    rewrite <- Hl. exact (id_tail_newline w Ha). }
  unfold resolve_channel_id, extract_channel_id. rewrite Hd. split; reflexivity.
Qed.

Lemma resolve_direct_id_trailing_newline_witness :
  resolve_channel_id ("UC" ++ "0123456789abcdefghij_-" ++ String "010" EmptyString)
    = Resolved (Some ("UC" ++ "0123456789abcdefghij_-" ++ String "010" EmptyString)).
Proof.
  apply (resolve_direct_id_trailing_newline "0123456789abcdefghij_-"); reflexivity.
Defined.

(** A [https://www.youtube.com/channel/UC...] URL, whatever follows the 22
    ID characters, resolves to the [UC] ID without a lookup in both resolvers. *)
Theorem channel_url_resolves_to_id (w q : string) :
  String.length w = 22 -> all_chars url_safe w = true ->
  resolve_channel_id ("https://www." ++ ("youtube.com/channel/UC" ++ (w ++ q)))
    = Resolved (Some ("UC" ++ w))
  /\ extract_channel_id ("https://www." ++ ("youtube.com/channel/UC" ++ (w ++ q)))
    = Resolved (Some ("UC" ++ w)).
Proof.
  intros Hl Ha.
  assert (Hhere : channel_url_here ("youtube.com/channel/UC" ++ (w ++ q)) = Some ("UC" ++ w)).
  { unfold channel_url_here. rewrite starts_with_app.
    change 22 with (String.length "youtube.com/channel/UC"). rewrite drop_app.
    change (String.length "youtube.com/channel/UC") with 22. rewrite <- Hl.
    rewrite (take_url_app w q Ha). reflexivity. }
  assert (Hs : re_search channel_url_here ("https://www." ++ ("youtube.com/channel/UC" ++ (w ++ q)))
               = Some ("UC" ++ w)).
  { cbn [append] in Hhere |- *.
    repeat (rewrite re_search_cons by reflexivity).
    exact (re_search_hit _ _ _ Hhere). }
  unfold resolve_channel_id, extract_channel_id. simpl (negb _). simpl (direct_id_match _).
  rewrite Hs. split; reflexivity.
Qed.

Lemma channel_url_resolves_to_id_witness :
  resolve_channel_id ("https://www." ++ ("youtube.com/channel/UC" ++ ("abcdefghijklmnopqrstuv" ++ "/videos")))
    = Resolved (Some ("UC" ++ "abcdefghijklmnopqrstuv")).
Proof. apply (channel_url_resolves_to_id "abcdefghijklmnopqrstuv" "/videos"); reflexivity. Defined.

Lemma take_handle_all (h : string) : all_chars handle_char h = true -> take_handle h = h.
Proof.
  induction h as [|c h IH]; simpl; [reflexivity|].
  intros H. apply andb_prop in H as [Hc Hh]. rewrite Hc, (IH Hh). reflexivity.
Qed.

Lemma handle_no_slash (h : string) : all_chars handle_char h = true -> all_chars no_slash h = true.
Proof.
  induction h as [|c h IH]; simpl; [reflexivity|].
  intros H. apply andb_prop in H as [Hc Hh]. rewrite (IH Hh), andb_true_r.
  unfold no_slash. destruct (Ascii.eqb_spec c "/"); [subst; discriminate | reflexivity].
Qed.

Lemma no_youtube_prefix (here : string -> option string) (s : string) :
  (forall t g, here t = Some g -> PyStr.starts_with "youtube.com/" t = true) ->
  all_chars no_slash s = true -> re_search here s = None.
Proof.
  intros Hhere Hs. apply (re_search_none here "youtube.com/" s Hhere).
  apply contains_no_slash; [reflexivity | exact Hs].
Qed.

(** A bare handle [@name] (non-empty, of [[a-zA-Z0-9_.-]]) is looked up as
    [name] by the service resolver, while the Streamlit and backend resolver,
    whose handle pattern needs [youtube.com/], returns [None] without a lookup. *)
Theorem resolve_bare_handle (h : string) :
  PyStr.truthy h = true -> all_chars handle_char h = true ->
  resolve_channel_id ("@" ++ h) = LookupName h
  /\ extract_channel_id ("@" ++ h) = Resolved None.
Proof.
  intros Ht Hh.
  assert (Hs : all_chars no_slash ("@" ++ h) = true) by (simpl; exact (handle_no_slash h Hh)).
  assert (Hopt : re_search handle_here_opt_prefix ("@" ++ h) = Some h).
  { apply re_search_hit. unfold handle_here_opt_prefix. simpl.
    unfold nonempty_handle. rewrite (take_handle_all h Hh), Ht. reflexivity. }
  assert (Hd : direct_id_match ("@" ++ h) = false) by (destruct h; reflexivity).
  unfold resolve_channel_id, extract_channel_id. simpl (negb _). rewrite Hd.
  rewrite (no_youtube_prefix channel_url_here _ channel_url_here_starts Hs).
  rewrite Hopt.
  rewrite (no_youtube_prefix handle_here_url _ handle_here_url_starts Hs).
  rewrite (no_youtube_prefix vanity_here _ vanity_here_starts Hs).
  split; reflexivity.
Qed.

Lemma resolve_bare_handle_witness :
  resolve_channel_id ("@" ++ "some.handle_1") = LookupName "some.handle_1"
  /\ extract_channel_id ("@" ++ "some.handle_1") = Resolved None.
Proof. apply (resolve_bare_handle "some.handle_1"); reflexivity. Defined.

(** The service resolver gives up without a lookup only on the empty
    string: any other input yields an ID or a name lookup. *)
Theorem resolve_channel_id_none_iff_empty (s : string) :
  resolve_channel_id s = Resolved None <-> s = "".
Proof.
  split; [|intros ->; reflexivity].
  unfold resolve_channel_id. destruct s as [|c s']; [reflexivity|]. simpl negb. cbv beta iota zeta.
  destruct (direct_id_match (String c s')); [discriminate|].
  destruct (re_search channel_url_here (String c s')); [discriminate|].
  destruct (re_search handle_here_opt_prefix (String c s')); [discriminate|].
  destruct (re_search vanity_here (String c s')); discriminate.
Qed.

(** The Streamlit and backend resolver calls the name lookup only for an
    input that contains [youtube.com/]. *)
Theorem extract_channel_id_lookup_needs_url (s q : string) :
  extract_channel_id s = LookupName q -> PyStr.contains "youtube.com/" s = true.
Proof.
  unfold extract_channel_id.
  destruct (negb (PyStr.truthy s)); [discriminate|].
  destruct (direct_id_match s); [discriminate|].
  destruct (re_search channel_url_here s); [discriminate|].
  destruct (re_search handle_here_url s) as [h|] eqn:Hh.
  - intros _. exact (re_search_contains _ _ _ _ handle_here_url_starts Hh).
  - destruct (re_search vanity_here s) as [n|] eqn:Hv; [|discriminate].
    intros _. exact (re_search_contains _ _ _ _ vanity_here_starts Hv).
Qed.

Lemma extract_channel_id_lookup_needs_url_witness :
  PyStr.contains "youtube.com/" "https://www.youtube.com/@creator" = true.
Proof.
  apply (extract_channel_id_lookup_needs_url "https://www.youtube.com/@creator" "creator").
  reflexivity.
Defined.

(** Both resolvers only ever call the name lookup with a non-empty query. *)
Theorem resolve_lookup_query_nonempty (s q : string) :
  (resolve_channel_id s = LookupName q \/ extract_channel_id s = LookupName q) ->
  PyStr.truthy q = true.
Proof.
  unfold resolve_channel_id, extract_channel_id.
  destruct (PyStr.truthy s) eqn:Hs; [|intros [H|H]; discriminate]. simpl negb. cbv iota.
  destruct (direct_id_match s); [intros [H|H]; discriminate|].
  destruct (re_search channel_url_here s); [intros [H|H]; discriminate|].
  intros [H|H].
  - destruct (re_search handle_here_opt_prefix s) as [h|] eqn:Hh.
    + inversion H; subst. destruct (re_search_some _ _ _ Hh) as [t Ht].
      exact (handle_here_opt_prefix_truthy _ _ Ht).
    + destruct (re_search vanity_here s) as [n|] eqn:Hv.
      * inversion H; subst. destruct (re_search_some _ _ _ Hv) as [t Ht].
        exact (vanity_here_truthy _ _ Ht).
      * inversion H; subst. exact Hs.
  - destruct (re_search handle_here_url s) as [h|] eqn:Hh.
    + inversion H; subst. destruct (re_search_some _ _ _ Hh) as [t Ht].
      exact (handle_here_url_truthy _ _ Ht).
    + destruct (re_search vanity_here s) as [n|] eqn:Hv; [|discriminate].
      inversion H; subst. destruct (re_search_some _ _ _ Hv) as [t Ht].
      exact (vanity_here_truthy _ _ Ht).
Qed.

Lemma resolve_lookup_query_nonempty_witness : PyStr.truthy "Some Channel" = true.
Proof.
  apply (resolve_lookup_query_nonempty "Some Channel" "Some Channel"). left. reflexivity.
Defined.

End ResolverExtra.

(** ** Keyword Matcher: further properties *)

Module MatcherExtra.

Lemma filter_map_swap {A B} (f : B -> bool) (g : A -> B) (l : list A) :
  filter f (map g l) = map g (filter (fun x => f (g x)) l).
Proof.
  induction l as [|x l IH]; simpl; [reflexivity|].
  destruct (f (g x)); simpl; rewrite IH; reflexivity.
Qed.

Lemma filter_as_positions (Q : segment -> bool) (t : list segment) :
  filter Q t
  = map (fun i => nth i t seg_default)
      (filter (fun i => Q (nth i t seg_default)) (seq 0 (List.length t))).
Proof.
  induction t as [|x t IH]; [reflexivity|].
  simpl List.length. simpl seq. rewrite <- seq_shift. simpl filter.
  rewrite filter_map_swap. simpl nth.
  destruct (Q x); simpl; rewrite map_map; simpl; rewrite IH; reflexivity.
Qed.


(** For a non-empty keyword the service matcher and the Gradio matcher find
    the same segments, in the same order. *)
Theorem search_in_transcript_agrees_with_gradio (transcript : list segment) (keyword : string) :
  PyStr.truthy keyword = true ->
  map (fun m => (m_start m, m_text m)) (search_in_transcript transcript keyword)
  = map (fun seg => (seg_start seg, seg_text seg)) (search_in_transcript_gradio transcript keyword).
Proof.
  intros Hk. unfold search_in_transcript_gradio. rewrite Hk.
  destruct transcript as [|x t]; [reflexivity|]. simpl negb. simpl orb. cbv iota.
  rewrite search_in_transcript_positions, filter_as_positions. unfold matching_positions.
  rewrite !map_map. reflexivity.
Qed.

Lemma search_in_transcript_agrees_with_gradio_witness :
  map (fun m => (m_start m, m_text m))
    (search_in_transcript [mk_segment "a CAT" 1; mk_segment "dog" 2; mk_segment "cats" 3] "cat")
  = [(1%Z, "a CAT"); (3%Z, "cats")].
Proof.
  rewrite (search_in_transcript_agrees_with_gradio _ "cat" eq_refl). reflexivity.
Defined.

End MatcherExtra.

(** ** Search loop and date filters: further properties *)

Module OrchestratorExtra.
Import Lister Dates Orchestrator OrchestratorView DateFilterFacts.

Lemma make_search_result_present (video : video_dict) (matches : list match_result) :
  fields_present video -> exists r, make_search_result video matches = Ret r.
Proof.
  intros (H1 & H2 & H3 & H4). unfold make_search_result.
  destruct (vd_id video); [|congruence]. destruct (vd_title video); [|congruence].
  destruct (vd_published_at video); [|congruence]. destruct (vd_thumbnail video); [|congruence].
  eexists; reflexivity.
Qed.

Lemma collect_results_expected_from (keyword : string)
    (get_transcript : nat -> option string -> list segment) :
  forall videos n results,
  Forall fields_present videos ->
  collect_results keyword get_transcript n videos results
  = Ret (results ++ expected_results keyword get_transcript n videos)%list.
Proof.
  induction videos as [|video rest IH]; intros n results Hall; simpl.
  - now rewrite app_nil_r.
  - apply Forall_cons_iff in Hall. destruct Hall as [Hv Hrest].
    unfold video_contribution.
    destruct (get_transcript n (vd_id video)) as [|seg segs]; [exact (IH _ _ Hrest)|].
    destruct (search_in_transcript (seg :: segs) keyword) as [|m ms]; [exact (IH _ _ Hrest)|].
    destruct (make_search_result_present video (m :: ms) Hv) as [r Hr]. rewrite Hr.
    rewrite (IH _ _ Hrest). now rewrite <- app_assoc.
Qed.

(** When every listed video has its ID, title, timestamp and thumbnail, the
    search loop never fails and returns, in video order, one result for each
    video whose fetched transcript is non-empty and has a match; videos with
    no transcript (a failed fetch) or no match are skipped and the loop goes
    on with the next video. *)
Theorem collect_results_in_order (keyword : string)
    (get_transcript : nat -> option string -> list segment) (videos : list video_dict) :
  Forall fields_present videos ->
  collect_results keyword get_transcript 0 videos []
  = Ret (expected_results keyword get_transcript 0 videos).
Proof. intros H. exact (collect_results_expected_from keyword get_transcript videos 0 [] H). Qed.

Lemma collect_results_in_order_witness :
  collect_results "keyword" CollectFacts.sample_transcripts 0
    [CollectFacts.sample_video "v1"; CollectFacts.sample_video "v2"] []
  = Ret (expected_results "keyword" CollectFacts.sample_transcripts 0
           [CollectFacts.sample_video "v1"; CollectFacts.sample_video "v2"]).
Proof.
  apply collect_results_in_order.
  repeat constructor; discriminate.
Defined.

Lemma collect_results_raise_from (keyword : string)
    (get_transcript : nat -> option string -> list segment) :
  forall videos n results e,
  collect_results keyword get_transcript n videos results = Raise e ->
  exists i video, nth_error videos i = Some video
    /\ video_contribution keyword get_transcript (n + i) video = Some (Raise e)
    /\ ~ fields_present video.
Proof.
  induction videos as [|video rest IH]; intros n results e H; simpl in H; [discriminate|].
  assert (Hshift : forall i v, nth_error rest i = Some v ->
            video_contribution keyword get_transcript (S n + i) v = Some (Raise e) ->
            ~ fields_present v ->
            exists i v, nth_error (video :: rest) i = Some v
              /\ video_contribution keyword get_transcript (n + i) v = Some (Raise e)
              /\ ~ fields_present v).
  { intros i v Hi Hc Hf. exists (S i), v. rewrite <- plus_n_Sm. auto. }
  destruct (get_transcript n (vd_id video)) as [|seg segs] eqn:Ht.
  - destruct (IH _ _ _ H) as (i & v & Hi & Hc & Hf). exact (Hshift i v Hi Hc Hf).
  - destruct (search_in_transcript (seg :: segs) keyword) as [|m ms] eqn:Hm.
    + destruct (IH _ _ _ H) as (i & v & Hi & Hc & Hf). exact (Hshift i v Hi Hc Hf).
    + destruct (make_search_result video (m :: ms)) as [r|e'] eqn:Hmk.
      * destruct (IH _ _ _ H) as (i & v & Hi & Hc & Hf). exact (Hshift i v Hi Hc Hf).
      * inversion H; subst. exists 0, video. rewrite Nat.add_0_r. split; [reflexivity|].
        split.
        -- unfold video_contribution. rewrite Ht, Hm, Hmk. reflexivity.
        -- intros Hf. destruct (make_search_result_present video (m :: ms) Hf) as [r Hr].
           congruence.
Qed.

(** The search loop fails (the request then ends in an HTTP 500) only at a
    video that has a match but lacks its ID, title, timestamp or thumbnail,
    so that its [SearchResult] fails validation. *)
Theorem collect_results_failure_cause (keyword : string)
    (get_transcript : nat -> option string -> list segment) (videos : list video_dict) (e : exn) :
  collect_results keyword get_transcript 0 videos [] = Raise e ->
  exists i video, nth_error videos i = Some video
    /\ video_contribution keyword get_transcript i video = Some (Raise e)
    /\ ~ fields_present video.
Proof. intros H. exact (collect_results_raise_from keyword get_transcript videos 0 [] e H). Qed.

Definition video_no_thumb : video_dict :=
  mk_video_dict (Some "v2") (Some "title") (Some "2024-01-01T00:00:00Z") None.

Lemma collect_results_failure_cause_witness :
  exists i video, nth_error [CollectFacts.sample_video "v1"; video_no_thumb] i = Some video
    /\ video_contribution "keyword" CollectFacts.sample_transcripts i video
       = Some (Raise (ValueError "validation error for SearchResult"))
    /\ ~ fields_present video.
Proof.
  apply (collect_results_failure_cause "keyword" CollectFacts.sample_transcripts
           [CollectFacts.sample_video "v1"; video_no_thumb]).
  reflexivity.
Defined.

Lemma comprehension_aware (cutoff : datetime) :
  dt_aware cutoff = true ->
  forall videos, Forall aware_timestamp videos ->
  published_after_comprehension cutoff videos = Ret (filter (published_on_or_after cutoff) videos).
Proof.
  intros Hc. induction videos as [|v rest IH]; intros Hall; [reflexivity|].
  apply Forall_cons_iff in Hall. destruct Hall as [(p & d & Hp & Hd & Ha) Hrest].
  simpl. rewrite Hp, Hd. unfold dt_le. rewrite Hc, Ha. simpl.
  rewrite (IH Hrest). unfold published_on_or_after. rewrite ?Hp, ?Hd.
  destruct (dt_seconds cutoff <=? dt_seconds d)%Z; reflexivity.
Qed.

(** When the cutoff and every video's timestamp parse as aware datetimes
    under [parse_published] (the forms [YYYY-MM-DDTHH:MM:SS] followed by
    [Z] or a [+HH:MM]/[-HH:MM] offset, the form the YouTube API writes;
    the other forms Python's [fromisoformat] accepts are not covered), the
    API date filter keeps exactly the videos published at or after the
    cutoff, in their order, and cuts the list to [max_videos]. *)
Theorem api_date_filter_well_formed (published_after : string) (cutoff : datetime)
    (max_videos : Z) (videos : list video_dict) :
  parse_published published_after = Some cutoff -> dt_aware cutoff = true ->
  Forall aware_timestamp videos ->
  api_date_filter (Some published_after) max_videos videos
  = Ret (py_slice_to (filter (published_on_or_after cutoff) videos) max_videos).
Proof.
  intros Hp Hc Hall. unfold api_date_filter.
  destruct published_after as [|ch rest]; [discriminate|]. simpl negb. cbv iota.
  rewrite Hp, (comprehension_aware cutoff Hc videos Hall). reflexivity.
Qed.

Lemma api_date_filter_well_formed_witness :
  api_date_filter (Some "2023-01-01T00:00:00Z") 5
    [DateFilterFacts.video_old; CollectFacts.sample_video "new"]
  = Ret [CollectFacts.sample_video "new"].
Proof.
  rewrite (api_date_filter_well_formed "2023-01-01T00:00:00Z" utc_2023_01_01 5).
  - reflexivity.
  - reflexivity.
  - reflexivity.
  - constructor; [|constructor; [|constructor]].
    + exists "2020-01-01T00:00:00Z", (mk_datetime 1577836800 true). now split.
    + exists "2024-01-01T00:00:00Z", (mk_datetime 1704067200 true). now split.
Defined.

(** In the Streamlit date loop, with aware bounds, a video is kept exactly
    when its timestamp parses as an aware datetime between the bounds, both
    ends included. *)
Theorem date_step_inclusive (start_date end_date : datetime) (video_id pub title : string) :
  dt_aware start_date = true -> dt_aware end_date = true ->
  kept_by start_date end_date (video_id, pub, title) = true
  <-> exists d, parse_published pub = Some d /\ dt_aware d = true
       /\ (dt_seconds start_date <= dt_seconds d <= dt_seconds end_date)%Z.
Proof.
  intros Hs He. unfold kept_by, date_step, dt_le. rewrite Hs, He.
  destruct (parse_published pub) as [d|]; [|split; [discriminate | intros (d & H & _); discriminate]].
  destruct (dt_aware d) eqn:Hd; simpl.
  - destruct (Z.leb_spec (dt_seconds start_date) (dt_seconds d));
    destruct (Z.leb_spec (dt_seconds d) (dt_seconds end_date)); simpl;
      split; try discriminate; intros; try (eexists; repeat split; eauto; lia);
      destruct H1 as (d' & Hd' & _ & Hlo & Hhi); inversion Hd'; subst; lia.
  - split; [discriminate|]. intros (d' & Hd' & Ha & _). inversion Hd'; subst. congruence.
Qed.

Lemma date_step_inclusive_witness :
  kept_by utc_2023_01_01 utc_2023_12_31_end ("v", "2023-12-31T23:59:59Z", "t") = true.
Proof.
  apply (date_step_inclusive utc_2023_01_01 utc_2023_12_31_end "v" "2023-12-31T23:59:59Z" "t");
    try reflexivity.
  eexists. split; [reflexivity|]. split; [reflexivity|]. simpl. lia.
Defined.

End OrchestratorExtra.

(** ** Video listings: further properties *)

Module ListerExtra.
Import Lister.

(** A platform that honours [maxResults]: up to 50 copies of one item. *)
Definition honest_playlist (calls : nat) (token : option string) (k : Z) : page_response :=
  if (k <=? 0)%Z then PageRaises OtherError
  else PageOk (firstn (Z.to_nat k) (map ListerFacts.sample_item (seq 0 50)))
         (match token with None => Some "page2" | Some _ => None end).

Lemma honest_playlist_honours (n : nat) (token : option string) (k : Z)
    (items : list raw_item) (next : option string) :
  honest_playlist n token k = PageOk items next -> (Z.of_nat (List.length items) <= k)%Z.
Proof.
  unfold honest_playlist. destruct (Z.leb_spec k 0) as [Hk|Hk]; [discriminate|].
  intros Hp. inversion Hp; subst. rewrite length_firstn. lia.
Qed.

(** [YouTubeService.fetch_videos] (src/api/app/services/youtube.py) never
    returns more than [max_videos] videos when the platform honours
    [maxResults], although it has no final slice. *)
Theorem fetch_videos_bounded (max_videos : Z)
    (playlist_items : nat -> option string -> Z -> page_response) (fuel : nat)
    (videos : list video_dict) :
  (forall n token k items next,
      playlist_items n token k = PageOk items next -> (Z.of_nat (List.length items) <= k)%Z) ->
  (0 <= max_videos)%Z ->
  fetch_videos max_videos playlist_items fuel = Some (Ret videos) ->
  (Z.of_nat (List.length videos) <= max_videos)%Z.
Proof.
  intros Hplatform Hn H.
  exact (FetchVideosFacts.fetch_videos_loop_bounded max_videos playlist_items Hplatform
           fuel 0 [] None videos H Hn ltac:(simpl; lia)).
Qed.

Lemma fetch_videos_bounded_witness :
  exists videos, fetch_videos 70 honest_playlist 5 = Some (Ret videos)
    /\ (Z.of_nat (List.length videos) <= 70)%Z.
Proof.
  eexists. split; [vm_compute; reflexivity|].
  apply (fetch_videos_bounded 70 honest_playlist 5).
  - exact honest_playlist_honours.
  - lia.
  - vm_compute. reflexivity.
Defined.

Lemma fetch_all_loop_gives_up (api_key : option string) (max_videos : Z)
    (playlist_page : nat -> option string -> page_response) (m : string) :
  forall fuel s attempt all_details token trace,
  (attempt <= 2)%nat ->
  (forall i, (i < attempt)%nat -> exists e, playlist_page (s + i) token = PageRaises e) ->
  fetch_all_loop api_key max_videos playlist_page fuel (s + attempt) all_details token attempt
    = Some (Raise (YouTubeChannelError m), trace) ->
  exists s' token', s' + 3 = s + attempt + List.length trace
    /\ forall i, (i < 3)%nat -> exists e, playlist_page (s' + i) token' = PageRaises e.
Proof.
  induction fuel as [|fuel IH]; intros s attempt acc token trace Ha Hprev H; simpl in H;
    [discriminate|].
  unfold fetch_video_details_page in H.
  destruct (PyStr.truthy_opt api_key); simpl in H; [|discriminate].
  destruct (playlist_page (s + attempt) token) as [items next|e] eqn:Hpage.
  - destruct ((max_videos <=? Z.of_nat (List.length (acc ++ keep_details items)))%Z);
      [discriminate|].
    destruct (negb (PyStr.truthy_opt next)); [discriminate|].
    destruct (fetch_all_loop api_key max_videos playlist_page fuel (S (s + attempt))
                (acc ++ keep_details items) next 0) as [[r tr]|] eqn:E; [|discriminate].
    simpl in H. inversion H; subst.
    rewrite (plus_n_O (S (s + attempt))) in E.
    destruct (IH (S (s + attempt)) 0 _ _ _ ltac:(lia) ltac:(intros; lia) E)
      as (s' & tok & Hlen & Hfail).
    exists s', tok. simpl. split; [lia | exact Hfail].
  - assert (Hnow : forall i, (i < S attempt)%nat -> exists e', playlist_page (s + i) token = PageRaises e').
    { intros i Hi. destruct (Nat.lt_ge_cases i attempt) as [Hlt|Hge]; [exact (Hprev i Hlt)|].
      replace i with attempt by lia. exists e. exact Hpage. }
    clear Hprev Hpage.
    destruct e; (destruct attempt as [|[|[|a]]]; [| | |lia]); simpl in H.
    all: first
      [ inversion H; subst; exists s, token; simpl; split; [lia|];
        intros i Hi; exact (Hnow i Hi)
      | destruct (fetch_all_loop api_key max_videos playlist_page fuel _ acc token _)
          as [[r tr]|] eqn:E; [|discriminate];
        simpl in H; inversion H; subst;
        rewrite (plus_n_Sm s) in E;
        eapply IH in E;
        [ destruct E as (s' & tok & Hlen & Hfail);
          exists s', tok; simpl; split; [lia | exact Hfail]
        | lia | exact Hnow ] ].
Qed.

(** [fetch_all_video_details] of src/app.py gives up with its retry error
    only after three consecutive failed page requests for the same page
    token: the last three of the requests it made. *)
Theorem fetch_all_video_details_gives_up (api_key : option string) (max_videos : Z)
    (playlist_page : nat -> option string -> page_response) (fuel : nat) (m : string)
    (trace : list nat) :
  fetch_all_video_details api_key max_videos playlist_page fuel
    = Some (Raise (YouTubeChannelError m), trace) ->
  (3 <= List.length trace)%nat
  /\ exists token, forall i, (i < 3)%nat ->
       exists e, playlist_page (List.length trace - 3 + i) token = PageRaises e.
Proof.
  intros H. unfold fetch_all_video_details in H.
  destruct (fetch_all_loop api_key max_videos playlist_page fuel 0 [] None 0)
    as [[[r|e] tr]|] eqn:E; try discriminate.
  inversion H; subst.
  destruct (fetch_all_loop_gives_up api_key max_videos playlist_page m fuel 0 0 [] None trace
              ltac:(lia) ltac:(intros; lia) E) as (s' & tok & Hlen & Hfail).
  split; [lia|]. exists tok. intros i Hi. replace (List.length trace - 3) with s' by lia.
  exact (Hfail i Hi).
Qed.

(** A platform whose every page request fails. *)
Definition failing_playlist (calls : nat) (token : option string) : page_response :=
  PageRaises HttpError.

Lemma fetch_all_video_details_gives_up_witness :
  fetch_all_video_details (Some "KEY") 50 failing_playlist 10
    = Some (Raise (YouTubeChannelError "Failed to fetch video details after 3 attempts."), [0; 0; 0])
  /\ (3 <= 3)%nat
  /\ exists token, forall i, (i < 3)%nat ->
       exists e, failing_playlist (3 - 3 + i) token = PageRaises e.
Proof.
  assert (E : fetch_all_video_details (Some "KEY") 50 failing_playlist 10
    = Some (Raise (YouTubeChannelError "Failed to fetch video details after 3 attempts."), [0; 0; 0]))
    by reflexivity.
  split; [exact E|].
  exact (fetch_all_video_details_gives_up _ _ _ _ _ _ E).
Defined.

(** Without an API key [fetch_all_video_details] raises the [ValueError] of
    its page helper on the first iteration, whatever the platform. *)
Theorem fetch_all_video_details_no_key (api_key : option string) (max_videos : Z)
    (playlist_page : nat -> option string -> page_response) (fuel : nat) :
  PyStr.truthy_opt api_key = false ->
  fetch_all_video_details api_key max_videos playlist_page (S fuel)
    = Some (Raise (ValueError "YouTube API Key is not configured."), [0]).
Proof.
  intros Hk. unfold fetch_all_video_details. simpl.
  unfold fetch_video_details_page. rewrite Hk. reflexivity.
Qed.

Lemma fetch_all_video_details_no_key_witness :
  fetch_all_video_details (Some "") 50 ListerFacts.sample_playlist 3
    = Some (Raise (ValueError "YouTube API Key is not configured."), [0]).
Proof. apply fetch_all_video_details_no_key. reflexivity. Defined.

End ListerExtra.

(** ** Uploads playlist: properties *)

Module PlaylistExtra.
Import Playlist.

(** [fetch_playlist_id] of src/app.py returns a non-empty playlist ID or
    raises; it raises [ValueError] exactly when the API key is missing or
    empty, and [YouTubeChannelError] for every other failure (a failed
    call, a channel not found, a missing or empty uploads playlist). *)
Theorem fetch_playlist_id_outcomes (channel_id : string) (api_key : option string)
    (response : channels_response) :
  match fetch_playlist_id channel_id api_key response with
  | Ret playlist_id => PyStr.truthy playlist_id = true /\ PyStr.truthy_opt api_key = true
  | Raise e =>
      (PyStr.truthy_opt api_key = false /\ e = ValueError "YouTube API Key is not configured.")
      \/ (PyStr.truthy_opt api_key = true /\ exists msg, e = YouTubeChannelError msg)
  end.
Proof.
  unfold fetch_playlist_id.
  destruct (PyStr.truthy_opt api_key) eqn:Hk; simpl; [|left; split; reflexivity].
  destruct response as [[|item rest]|e].
  - right. split; [reflexivity | eexists; reflexivity].
  - destruct (ci_uploads item) as [p|].
    + destruct (PyStr.truthy p) eqn:Hp; [split; [exact Hp | reflexivity]|].
      right. split; [reflexivity | eexists; reflexivity].
    + right. split; [reflexivity | eexists; reflexivity].
  - destruct e; right; (split; [reflexivity | eexists; reflexivity]).
Qed.

End PlaylistExtra.

(** ** The API entry point: properties *)

Module ApiSearchExtra.
Import Resolver Lister Dates Orchestrator Playlist ApiSearch.

Lemma fetch_videos_tolerant_loop_bounded (max_videos : Z)
    (playlist_items : nat -> option string -> Z -> page_response)
    (Hplatform : forall n token k items next,
        playlist_items n token k = PageOk items next -> (Z.of_nat (List.length items) <= k)%Z) :
  forall fuel calls videos token result,
  fetch_videos_tolerant_loop max_videos playlist_items fuel calls videos token = Some result ->
  (Z.of_nat (List.length videos) <= Z.max 0 max_videos)%Z ->
  (Z.of_nat (List.length result) <= Z.max 0 max_videos)%Z.
Proof.
  induction fuel as [|fuel IH]; intros calls videos token result H Hv; simpl in H.
  - destruct (Z.ltb_spec (Z.of_nat (List.length videos)) max_videos); [discriminate|].
    inversion H; subst. exact Hv.
  - destruct (Z.ltb_spec (Z.of_nat (List.length videos)) max_videos) as [Hlt|Hge].
    + destruct (playlist_items calls token (Z.min 50 (max_videos - Z.of_nat (List.length videos))))
        as [items next|e] eqn:Hpage; [|inversion H; subst; exact Hv].
      pose proof (Hplatform _ _ _ _ _ Hpage) as Hitems.
      assert (Hv' : (Z.of_nat (List.length (videos ++ map to_video_dict items)) <= Z.max 0 max_videos)%Z)
        by (rewrite length_app, length_map; lia).
      destruct (negb (PyStr.truthy_opt next)).
      * inversion H; subst. exact Hv'.
      * exact (IH _ _ _ _ H Hv').
    + inversion H; subst. exact Hv.
Qed.

Lemma comprehension_shorter (cutoff : datetime) :
  forall videos kept, published_after_comprehension cutoff videos = Ret kept ->
  (List.length kept <= List.length videos)%nat.
Proof.
  induction videos as [|v rest IH]; intros kept H; simpl in H.
  - inversion H; subst. reflexivity.
  - destruct (vd_published_at v) as [p|]; [|discriminate].
    destruct (parse_published p) as [d|]; [|discriminate].
    destruct (dt_le cutoff d) as [keep|e]; [|discriminate].
    destruct (published_after_comprehension cutoff rest) as [kept'|e]; [|discriminate].
    inversion H; subst. specialize (IH kept' eq_refl).
    destruct keep; simpl; lia.
Qed.

Lemma py_slice_to_shorter {A} (l : list A) (n : Z) :
  (List.length (py_slice_to l n) <= List.length l)%nat.
Proof. unfold py_slice_to. destruct (0 <=? n)%Z; rewrite length_firstn; lia. Qed.

Lemma api_date_filter_shorter (published_after : option string) (max_videos : Z)
    (videos kept : list video_dict) :
  api_date_filter published_after max_videos videos = Ret kept ->
  (List.length kept <= List.length videos)%nat
  /\ (PyStr.truthy_opt published_after = false -> kept = videos).
Proof.
  unfold api_date_filter. destruct published_after as [pa|].
  - destruct (PyStr.truthy pa) eqn:Hpa; simpl.
    + destruct (parse_published pa) as [c|]; [|intros H; inversion H; subst; split; [lia | simpl; congruence]].
      destruct (published_after_comprehension c videos) as [k|e] eqn:Hc.
      * intros H; inversion H; subst. split; [|simpl; congruence].
        pose proof (comprehension_shorter c videos k Hc).
        pose proof (py_slice_to_shorter k max_videos). lia.
      * destruct e; intros H; inversion H; subst; split; [lia | simpl; congruence].
    + intros H; inversion H; subst. split; [lia | reflexivity].
  - intros H; inversion H; subst. split; [lia | reflexivity].
Qed.

Lemma collect_results_length (keyword : string)
    (get_transcript : nat -> option string -> list segment) :
  forall videos n results out,
  collect_results keyword get_transcript n videos results = Ret out ->
  (List.length out <= List.length results + List.length videos)%nat.
Proof.
  induction videos as [|v rest IH]; intros n results out H; simpl in H.
  - inversion H; subst. lia.
  - destruct (get_transcript n (vd_id v)) as [|s ss].
    + specialize (IH _ _ _ H). simpl. lia.
    + destruct (search_in_transcript (s :: ss) keyword) as [|m ms].
      * specialize (IH _ _ _ H). simpl. lia.
      * destruct (make_search_result v (m :: ms)) as [r|e]; [|discriminate].
        specialize (IH _ _ _ H). rewrite length_app in IH. simpl in *. lia.
Qed.

Section Oracles.

Variable channel_search : string -> search_response.
Variable channels : string -> channels_response.
Variable playlist_items : string -> nat -> option string -> Z -> page_response.
Variable get_transcript : nat -> option string -> list segment.
Variable str_exn : exn -> string.


Lemma resolve_channel_never_raises (channel_url : string) (e : exn) :
  ApiSearch.resolve_channel channel_search channel_url <> Raise e.
Proof.
  unfold ApiSearch.resolve_channel. destruct (resolve_channel_id channel_url) as [r|q]; [discriminate|].
  unfold resolve_name_to_channel_id.
  destruct (channel_search q) as [[|item rest]|e']; try discriminate.
  destruct (si_channel_id item); discriminate.
Qed.

Lemma blank_truthy (k : string) : blank k = false -> PyStr.truthy k = true.
Proof. destruct k; [discriminate | reflexivity]. Qed.

(** The endpoint answers HTTP 400 exactly when the API key is set and not
    blank and the channel input resolves to no channel ID (or an empty
    one); a failure after that point is an HTTP 500, never a 400. *)
Theorem search_400_iff (api_key : option string) (channel_url keyword : string)
    (max_videos : Z) (published_after : option string) (fuel : nat) (detail : string) :
  ApiSearch.search channel_search channels playlist_items get_transcript str_exn api_key channel_url keyword max_videos published_after fuel
    = Some (HttpException 400 detail)
  <-> (exists k, api_key = Some k /\ blank k = false)
      /\ (exists r, ApiSearch.resolve_channel channel_search channel_url = Ret r /\ PyStr.truthy_opt r = false)
      /\ detail = "Invalid YouTube channel URL or ID".
Proof.
  unfold ApiSearch.search. split.
  - destruct (PyStr.truthy_opt api_key) eqn:Hk; simpl; [|intros H; inversion H].
    destruct api_key as [k|]; [|discriminate].
    destruct (blank k) eqn:Hb; [intros H; inversion H|].
    destruct (ApiSearch.resolve_channel channel_search channel_url) as [[cid|]|e] eqn:Hr.
    + destruct (PyStr.truthy cid) eqn:Hc; simpl.
      * destruct (fetch_uploads_playlist_id cid (channels cid)) as [pl|e]; [|intros H; inversion H].
        destruct (fetch_videos_tolerant _ _ fuel) as [[|v vs]|]; try discriminate.
        destruct (api_date_filter published_after max_videos (v :: vs)) as [vs'|e];
          [|intros H; inversion H].
        destruct (collect_results keyword get_transcript 0 vs' []); intros H; inversion H.
      * intros H; inversion H; subst.
        split; [eexists; split; [reflexivity | exact Hb]|].
        split; [|reflexivity]. exists (Some cid). split; [reflexivity | exact Hc].
    + intros H; inversion H; subst.
      split; [eexists; split; [reflexivity | exact Hb]|].
      split; [|reflexivity]. exists None. split; reflexivity.
    + exfalso. exact (resolve_channel_never_raises channel_url e Hr).
  - intros ((k & -> & Hb) & (r & Hr & Hf) & ->).
    cbn [PyStr.truthy_opt]. rewrite (blank_truthy k Hb). cbv beta iota. cbn [negb].
    rewrite Hb, Hr.
    destruct r as [cid|]; [|reflexivity].
    simpl in Hf. rewrite Hf. reflexivity.
Qed.

(** An unset, empty or blank (white space only) API key is answered with
    HTTP 500 before anything else is done. *)
Theorem search_rejects_missing_key (api_key : option string) (channel_url keyword : string)
    (max_videos : Z) (published_after : option string) (fuel : nat) :
  (api_key = None \/ exists k, api_key = Some k /\ blank k = true) ->
  exists detail,
    ApiSearch.search channel_search channels playlist_items get_transcript str_exn api_key channel_url keyword max_videos published_after fuel
      = Some (HttpException 500 detail).
Proof.
  unfold ApiSearch.search. intros [->|(k & -> & Hb)]; [eexists; reflexivity|].
  destruct k as [|c k']; [eexists; reflexivity|].
  cbn [PyStr.truthy_opt PyStr.truthy negb]. rewrite Hb. eexists; reflexivity.
Qed.

(** When the platform honours [maxResults] and [max_videos >= 0], the
    endpoint returns at most [max_videos] results without a date filter and
    at most [5 * max_videos] with one (the over-fetched list is cut to
    [max_videos] only when the whole filter succeeds). *)
Theorem search_results_bounded (api_key : option string) (channel_url keyword : string)
    (max_videos : Z) (published_after : option string) (fuel : nat)
    (results : list search_result) :
  (forall playlist_id n token k items next,
      playlist_items playlist_id n token k = PageOk items next ->
      (Z.of_nat (List.length items) <= k)%Z) ->
  (0 <= max_videos)%Z ->
  ApiSearch.search channel_search channels playlist_items get_transcript str_exn api_key channel_url keyword max_videos published_after fuel = Some (HttpOk results) ->
  (Z.of_nat (List.length results)
     <= if PyStr.truthy_opt published_after then 5 * max_videos else max_videos)%Z.
Proof.
  intros Hplatform Hn. unfold ApiSearch.search.
  destruct (negb (PyStr.truthy_opt api_key)); [discriminate|].
  destruct (blank _); [discriminate|].
  destruct (ApiSearch.resolve_channel channel_search channel_url) as [[cid|]|e]; try discriminate.
  destruct (negb (PyStr.truthy cid)); [discriminate|].
  destruct (fetch_uploads_playlist_id cid (channels cid)) as [pl|e]; [|discriminate].
  set (fetch_count := if PyStr.truthy_opt published_after then (max_videos * 5)%Z else max_videos).
  destruct (fetch_videos_tolerant fetch_count (playlist_items pl) fuel) as [videos|] eqn:Ef;
    [|discriminate].
  assert (Hf : (Z.of_nat (List.length videos) <= Z.max 0 fetch_count)%Z).
  { apply (fetch_videos_tolerant_loop_bounded fetch_count (playlist_items pl)
             (Hplatform pl) fuel 0 [] None videos Ef). simpl. lia. }
  destruct videos as [|v vs].
  - intros H; inversion H; subst. cbn [List.length Z.of_nat].
    destruct (PyStr.truthy_opt published_after); lia.
  - destruct (api_date_filter published_after max_videos (v :: vs)) as [kept|e] eqn:Ed;
      [|discriminate].
    destruct (collect_results keyword get_transcript 0 kept []) as [out|e] eqn:Ec;
      [|discriminate].
    intros H; inversion H; subst.
    pose proof (collect_results_length keyword get_transcript kept 0 [] results Ec) as Hc.
    destruct (api_date_filter_shorter _ _ _ _ Ed) as [Hlen Hid].
    unfold fetch_count in Hf. simpl in Hc.
    destruct (PyStr.truthy_opt published_after); lia.
Qed.

End Oracles.

(** Sample platform: one channel with its uploads playlist, served by
    [honest_playlist]. *)
Definition sample_channel_search (q : string) : search_response :=
  SearchOk [mk_search_item (Some "UCabcdefghijklmnopqrstuv") (Some "Sample")].

Definition sample_channels (channel_id : string) : channels_response :=
  ChannelsOk [mk_channel_item (Some "UUabcdefghijklmnopqrstuv")].

Definition sample_playlist_item : raw_item :=
  mk_raw_item (Some "vid") (Some "2024-01-01T00:00:00Z") (Some "title") (Some "thumb").

Definition sample_items (playlist_id : string) (calls : nat) (token : option string) (k : Z)
  : page_response :=
  if (k <=? 0)%Z then PageRaises OtherError
  else PageOk (firstn (Z.to_nat k) (repeat sample_playlist_item 50))
         (match token with None => Some "page2" | Some _ => None end).

Lemma sample_items_honour (playlist_id : string) (n : nat) (token : option string) (k : Z)
    (items : list raw_item) (next : option string) :
  sample_items playlist_id n token k = PageOk items next -> (Z.of_nat (List.length items) <= k)%Z.
Proof.
  unfold sample_items. destruct (Z.leb_spec k 0) as [Hk|Hk]; [discriminate|].
  intros Hp. inversion Hp; subst. rewrite length_firstn. lia.
Qed.

Definition sample_transcript (n : nat) (video_id : option string) : list segment :=
  [mk_segment "before" 0; mk_segment "the keyword" 4].

Definition sample_str_exn (e : exn) : string := "error".

Lemma search_400_iff_witness :
  ApiSearch.search sample_channel_search sample_channels sample_items sample_transcript
    sample_str_exn (Some "KEY") "" "keyword" 10 None 5
    = Some (HttpException 400 "Invalid YouTube channel URL or ID").
Proof.
  apply search_400_iff. split; [exists "KEY"; split; reflexivity|].
  split; [|reflexivity]. exists None. split; reflexivity.
Defined.

Lemma search_rejects_missing_key_witness :
  exists detail,
    ApiSearch.search sample_channel_search sample_channels sample_items sample_transcript
      sample_str_exn (Some "   ") "@handle" "keyword" 10 None 5
      = Some (HttpException 500 detail).
Proof.
  apply search_rejects_missing_key. right. exists "   ". split; reflexivity.
Defined.

Lemma search_results_bounded_witness :
  exists results,
    ApiSearch.search sample_channel_search sample_channels sample_items sample_transcript
      sample_str_exn (Some "KEY") "@handle" "keyword" 3 (Some "2023-01-01T00:00:00Z") 5
      = Some (HttpOk results)
    /\ (Z.of_nat (List.length results) <= 15)%Z.
Proof.
  eexists. split; [vm_compute; reflexivity|].
  change 15%Z with (if PyStr.truthy_opt (Some "2023-01-01T00:00:00Z") then 5 * 3 else 3)%Z.
  apply (search_results_bounded sample_channel_search sample_channels sample_items
           sample_transcript sample_str_exn (Some "KEY") "@handle" "keyword" 3
           (Some "2023-01-01T00:00:00Z") 5).
  - exact sample_items_honour.
  - lia.
  - vm_compute. reflexivity.
Defined.

End ApiSearchExtra.

(** ** Transcripts of the Streamlit application: properties *)

Module TranscriptExtra.
Import Lister StreamlitTranscripts.

Lemma cache_lookup_insert_same (video_id : string) (t : list segment) (c : cache) :
  cache_lookup video_id (cache_insert video_id t c) = Some t.
Proof.
  induction c as [|[k v] rest IH]; simpl.
  - rewrite String.eqb_refl. reflexivity.
  - destruct (String.eqb_spec k video_id) as [->|Hne]; simpl.
    + rewrite String.eqb_refl. reflexivity.
    + apply String.eqb_neq in Hne. rewrite Hne. exact IH.
Qed.

Lemma cache_lookup_insert_other (video_id k : string) (t : list segment) (c : cache) :
  k <> video_id -> cache_lookup k (cache_insert video_id t c) = cache_lookup k c.
Proof.
  intros Hk. induction c as [|[k' v] rest IH]; simpl.
  - destruct (String.eqb_spec video_id k); [congruence | reflexivity].
  - destruct (String.eqb_spec k' video_id) as [->|Hne]; simpl.
    + destruct (String.eqb_spec video_id k); [congruence | reflexivity].
    + destruct (String.eqb k' k); [reflexivity | exact IH].
Qed.

Lemma cache_insert_twice (video_id : string) (t : list segment) (c : cache) :
  cache_insert video_id t (cache_insert video_id t c) = cache_insert video_id t c.
Proof.
  induction c as [|[k v] rest IH]; simpl.
  - rewrite String.eqb_refl. reflexivity.
  - destruct (String.eqb_spec k video_id) as [->|Hne]; simpl.
    + rewrite String.eqb_refl. reflexivity.
    + apply String.eqb_neq in Hne. rewrite Hne, IH. reflexivity.
Qed.

Lemma format_results_head (video_id title keyword : string) (matches : list match_result)
    (l : string) (rest : list string) :
  format_results video_id title keyword matches = l :: rest ->
  PyStr.starts_with "### [" l = true /\ PyStr.starts_with warning_mark l = false.
Proof.
  destruct matches as [|m ms]; simpl; [discriminate|].
  intros H. injection H as <- _. split; reflexivity.
Qed.

Lemma warning_line_marked (video_id title : string) (e : transcript_error) :
  PyStr.starts_with warning_mark (warning_line video_id title e) = true.
Proof. unfold warning_line. apply ResolverExtra.starts_with_app. Qed.

Section Oracles.

Variable get_transcript_api : nat -> string -> transcript_outcome.
Variable list_transcripts_api : nat -> string -> listing.

(** [fetch_transcript] of src/app.py memoizes its successes.  A cached
    transcript is returned as it is, with no remote call and the cache
    unchanged.  Otherwise it makes a [get_transcript] call: a transcript it
    returns is stored under the video ID (the other entries untouched), so
    that the next fetch of that ID returns it with no remote call whatever
    the service would answer; [NoTranscriptFound] costs a second call
    ([list_transcripts]) and the other failures none, and a failure leaves
    the cache as it was. *)
Theorem fetch_transcript_memoizes (n : nat) (c : cache) (video_id : string) :
  (forall t, cache_lookup video_id c = Some t ->
     fetch_transcript get_transcript_api list_transcripts_api n c video_id = (inl t, n, c))
  /\ (cache_lookup video_id c = None ->
      match get_transcript_api n video_id with
      | Fetched t =>
          fetch_transcript get_transcript_api list_transcripts_api n c video_id
            = (inl t, S n, cache_insert video_id t c)
          /\ cache_lookup video_id (cache_insert video_id t c) = Some t
          /\ (forall k, k <> video_id ->
                cache_lookup k (cache_insert video_id t c) = cache_lookup k c)
          /\ (forall get' list' m,
                fetch_transcript get' list' m (cache_insert video_id t c) video_id
                = (inl t, m, cache_insert video_id t c))
      | NoTranscriptFound =>
          exists e, fetch_transcript get_transcript_api list_transcripts_api n c video_id
                    = (inr e, S (S n), c)
      | _ =>
          exists e, fetch_transcript get_transcript_api list_transcripts_api n c video_id
                    = (inr e, S n, c)
      end).
Proof.
  split.
  - intros t Ht. unfold fetch_transcript. rewrite Ht. reflexivity.
  - intros Hc. unfold fetch_transcript. rewrite Hc.
    destruct (get_transcript_api n video_id) as [t| | |msg]; try (eexists; reflexivity).
    split; [reflexivity|].
    split; [apply cache_lookup_insert_same|].
    split; [intros k Hk; apply cache_lookup_insert_other; exact Hk|].
    intros get' list' m. rewrite cache_lookup_insert_same. reflexivity.
Qed.

Lemma fetch_transcript_miss (n : nat) (c : cache) (video_id : string) :
  cache_lookup video_id c = None ->
  match fetch_transcript get_transcript_api list_transcripts_api n c video_id with
  | (inl t, m, c') => c' = cache_insert video_id t c /\ (n < m <= S (S n))%nat
  | (inr e, m, c') => c' = c /\ (n < m <= S (S n))%nat
  end.
Proof.
  intros Hc. unfold fetch_transcript. rewrite Hc.
  destruct (get_transcript_api n video_id); split; (reflexivity || lia).
Qed.

Lemma process_single_video_cases (n : nat) (c : cache)
    (video_id title pub_date_str keyword : string) :
  let '(lines, n', c') :=
    process_single_video get_transcript_api list_transcripts_api n c video_id title
      pub_date_str keyword in
  (forall t, cache_lookup video_id c = Some t ->
     lines = format_results video_id title keyword (search_in_transcript t keyword)
     /\ n' = n /\ c' = c)
  /\ (cache_lookup video_id c = None ->
      (n < n' <= n + 6)%nat
      /\ ((exists t m,
             lines = format_results video_id title keyword (search_in_transcript t keyword)
             /\ c' = cache_insert video_id t c
             /\ fetch_transcript get_transcript_api list_transcripts_api m c video_id
                = (inl t, n', cache_insert video_id t c)
             /\ (m = n
                 \/ (exists e1, fetch_transcript get_transcript_api list_transcripts_api n c video_id
                                = (inr e1, m, c))
                 \/ (exists e1 e2 m1,
                       fetch_transcript get_transcript_api list_transcripts_api n c video_id
                       = (inr e1, m1, c)
                       /\ fetch_transcript get_transcript_api list_transcripts_api m1 c video_id
                          = (inr e2, m, c))))
          \/ (exists e1 e2 e3 m1 m2,
                fetch_transcript get_transcript_api list_transcripts_api n c video_id
                = (inr e1, m1, c)
                /\ fetch_transcript get_transcript_api list_transcripts_api m1 c video_id
                   = (inr e2, m2, c)
                /\ fetch_transcript get_transcript_api list_transcripts_api m2 c video_id
                   = (inr e3, n', c)
                /\ lines = [warning_line video_id title e3] /\ c' = c))).
Proof.
  unfold process_single_video.
  destruct (cache_lookup video_id c) as [t|] eqn:Hc; cbv beta iota zeta.
  - split; [intros t' Ht'; inversion Ht'; subst; auto | intros H; discriminate].
  - unfold RETRY_ATTEMPTS. cbn [transcript_retry].
    pose proof (fetch_transcript_miss n c video_id Hc) as M1.
    destruct (fetch_transcript get_transcript_api list_transcripts_api n c video_id)
      as [[[t1|e1] m1] c1] eqn:F1; destruct M1 as [-> B1]; cbv beta iota zeta.
    { rewrite cache_insert_twice. split; [intros t' H; discriminate|]. intros _.
      split; [lia|]. left.
      exists t1, n. split; [reflexivity|]. split; [reflexivity|]. split; [exact F1|]. left; reflexivity. }
    pose proof (fetch_transcript_miss m1 c video_id Hc) as M2.
    destruct (fetch_transcript get_transcript_api list_transcripts_api m1 c video_id)
      as [[[t2|e2] m2] c2] eqn:F2; destruct M2 as [-> B2]; cbv beta iota zeta.
    { rewrite cache_insert_twice. split; [intros t' H; discriminate|]. intros _.
      split; [lia|]. left.
      exists t2, m1. split; [reflexivity|]. split; [reflexivity|]. split; [exact F2|].
      right; left. exists e1. first [exact F1 | reflexivity]. }
    pose proof (fetch_transcript_miss m2 c video_id Hc) as M3.
    destruct (fetch_transcript get_transcript_api list_transcripts_api m2 c video_id)
      as [[[t3|e3] m3] c3] eqn:F3; destruct M3 as [-> B3]; cbv beta iota zeta.
    { rewrite cache_insert_twice. split; [intros t' H; discriminate|]. intros _.
      split; [lia|]. left.
      exists t3, m2. split; [reflexivity|]. split; [reflexivity|]. split; [exact F3|].
      right; right. exists e1, e2, m1. split; (assumption || reflexivity). }
    split; [intros t' H; discriminate|]. intros _.
    split; [lia|]. right.
    exists e1, e2, e3, m1, m2. repeat split; (assumption || reflexivity).
Qed.

(** [_process_single_video] of src/app.py.  With the transcript cached it
    makes no remote call, leaves the cache unchanged and returns the
    formatted matches of the cached transcript.  Otherwise it makes between
    one and six remote calls, through at most three calls of
    [fetch_transcript]: either one of them (the first, or one following one
    or two failed ones) obtains a transcript, which is then cached under the
    video ID and whose formatted matches are returned; or it gives up after
    three failed fetches, leaves the cache unchanged and returns the one
    warning line carrying the error of the third. *)
Theorem process_single_video_calls (n : nat) (c : cache)
    (video_id title pub_date_str keyword : string) :
  let '(lines, n', c') :=
    process_single_video get_transcript_api list_transcripts_api n c video_id title
      pub_date_str keyword in
  (forall t, cache_lookup video_id c = Some t ->
     lines = format_results video_id title keyword (search_in_transcript t keyword)
     /\ n' = n /\ c' = c)
  /\ (cache_lookup video_id c = None ->
      (n < n' <= n + 6)%nat
      /\ ((exists t m,
             lines = format_results video_id title keyword (search_in_transcript t keyword)
             /\ c' = cache_insert video_id t c
             /\ fetch_transcript get_transcript_api list_transcripts_api m c video_id
                = (inl t, n', cache_insert video_id t c)
             /\ (m = n
                 \/ (exists e1, fetch_transcript get_transcript_api list_transcripts_api n c video_id
                                = (inr e1, m, c))
                 \/ (exists e1 e2 m1,
                       fetch_transcript get_transcript_api list_transcripts_api n c video_id
                       = (inr e1, m1, c)
                       /\ fetch_transcript get_transcript_api list_transcripts_api m1 c video_id
                          = (inr e2, m, c))))
          \/ (exists e1 e2 e3 m1 m2,
                fetch_transcript get_transcript_api list_transcripts_api n c video_id
                = (inr e1, m1, c)
                /\ fetch_transcript get_transcript_api list_transcripts_api m1 c video_id
                   = (inr e2, m2, c)
                /\ fetch_transcript get_transcript_api list_transcripts_api m2 c video_id
                   = (inr e3, n', c)
                /\ lines = [warning_line video_id title e3] /\ c' = c))).
Proof. exact (process_single_video_cases n c video_id title pub_date_str keyword). Qed.

(** The output of [_process_single_video] starts with the warning marker
    (the test [process_channel_search] uses to tell matches from warnings)
    exactly when the transcript was not cached and three fetches failed,
    and it is then the single warning line carrying the third error;
    otherwise it is empty (no match) or starts with the ["### ["] title
    line. *)
Theorem process_single_video_lines (n : nat) (c : cache)
    (video_id title pub_date_str keyword : string) :
  let '(lines, n', c') :=
    process_single_video get_transcript_api list_transcripts_api n c video_id title
      pub_date_str keyword in
  (match lines with
   | l :: _ => PyStr.starts_with warning_mark l
   | [] => false
   end = true
   <-> (cache_lookup video_id c = None
        /\ exists e1 e2 e3 m1 m2,
             fetch_transcript get_transcript_api list_transcripts_api n c video_id
             = (inr e1, m1, c)
             /\ fetch_transcript get_transcript_api list_transcripts_api m1 c video_id
                = (inr e2, m2, c)
             /\ fetch_transcript get_transcript_api list_transcripts_api m2 c video_id
                = (inr e3, n', c)
             /\ lines = [warning_line video_id title e3]))
  /\ (match lines with
      | l :: _ => PyStr.starts_with warning_mark l
      | [] => false
      end = false ->
      lines = [] \/ exists l rest, lines = l :: rest /\ PyStr.starts_with "### [" l = true).
Proof.
  pose proof (process_single_video_cases n c video_id title pub_date_str keyword) as Hs.
  destruct (process_single_video get_transcript_api list_transcripts_api n c video_id title
              pub_date_str keyword) as [[lines n'] c'].
  destruct Hs as [Hhit Hmiss].
  assert (Hfmt : forall t,
            lines = format_results video_id title keyword (search_in_transcript t keyword) ->
            (match lines with l :: _ => PyStr.starts_with warning_mark l | [] => false end = false)
            /\ (lines = [] \/ exists l rest, lines = l :: rest
                                /\ PyStr.starts_with "### [" l = true)).
  { intros t ->.
    destruct (format_results video_id title keyword (search_in_transcript t keyword))
      as [|l rest] eqn:F; [split; [reflexivity | left; reflexivity]|].
    destruct (format_results_head _ _ _ _ _ _ F) as [Hh Hw].
    split; [exact Hw|]. right. exists l, rest. auto. }
  destruct (cache_lookup video_id c) as [t|] eqn:Hc.
  - destruct (Hhit t eq_refl) as [Hl _]. destruct (Hfmt t Hl) as [Hw Hshape].
    rewrite Hw. split; [split; [discriminate | intros [H _]; discriminate] | intros _; exact Hshape].
  - destruct (Hmiss eq_refl) as [_ [(t & m & Hl & _) | (e1 & e2 & e3 & m1 & m2 & F1 & F2 & F3 & Hl & _)]].
    + destruct (Hfmt t Hl) as [Hw Hshape]. rewrite Hw.
      split; [|intros _; exact Hshape]. split; [discriminate|].
      intros [_ (e1 & e2 & e3 & m1 & m2 & _ & _ & _ & Hl')].
      rewrite Hl' in Hw. rewrite warning_line_marked in Hw. discriminate.
    + subst lines. rewrite warning_line_marked.
      split; [|discriminate]. split; [|reflexivity]. intros _. split; [reflexivity|].
      exists e1, e2, e3, m1, m2. auto.
Qed.

End Oracles.

(** A service whose first two fetches fail and whose third succeeds. *)
Definition flaky_get (n : nat) (video_id : string) : transcript_outcome :=
  match n with
  | 0 => FetchFails "timeout"
  | 1 => NoTranscriptFound
  | _ => Fetched [mk_segment "the keyword" 65]
  end.

Definition flaky_list (n : nat) (video_id : string) : listing := Listed ["de"].

Lemma flaky_api_sample :
  process_single_video flaky_get flaky_list 0 [] "vid" "Title" "2024-01-01T00:00:00Z" "keyword"
  = ([String "035" ("## [Title](https://www.youtube.com/watch?v=vid)" ++ String "010" EmptyString);
      "- [01:05](https://www.youtube.com/watch?v=vid&t=65s): the **keyword**" ++ String "010" EmptyString;
      String "010" ("---" ++ String "010" EmptyString)],
     4%nat, [("vid", [mk_segment "the keyword" 65])]).
Proof. vm_compute. reflexivity. Qed.

End TranscriptExtra.

(** ** The FastAPI router: properties *)

Module ApiRouterExtra.
Import Resolver Lister Dates Orchestrator Playlist ApiSearch ApiRouter.

(** When the platform honours [maxResults] and [max_videos >= 0], the
    router's search returns at most [max_videos] results without a date
    filter and at most [3 * max_videos] with one. *)
Theorem router_search_results_bounded (channel_search : string -> search_response)
    (channels : string -> channels_response)
    (playlist_items : string -> nat -> option string -> Z -> page_response)
    (get_transcript : nat -> option string -> list segment) (str_exn : exn -> string)
    (api_key : option string) (channel_url keyword : string) (max_videos : Z)
    (published_after : option string) (fuel : nat) (results : list search_result) :
  (forall playlist_id n token k items next,
      playlist_items playlist_id n token k = PageOk items next ->
      (Z.of_nat (List.length items) <= k)%Z) ->
  (0 <= max_videos)%Z ->
  router_search channel_search channels playlist_items get_transcript str_exn
    api_key channel_url keyword max_videos published_after fuel = Some (HttpOk results) ->
  (Z.of_nat (List.length results)
     <= if PyStr.truthy_opt published_after then 3 * max_videos else max_videos)%Z.
Proof.
  intros Hplatform Hn. unfold router_search.
  destruct (negb (PyStr.truthy_opt api_key)); [discriminate|].
  destruct (resolve_channel channel_search channel_url) as [[cid|]|e]; try discriminate.
  destruct (negb (PyStr.truthy cid)); [discriminate|].
  destruct (fetch_uploads_playlist_id cid (channels cid)) as [pl|e]; [|discriminate].
  set (fetch_count := if PyStr.truthy_opt published_after then (max_videos * 3)%Z else max_videos).
  destruct (fetch_videos fetch_count (playlist_items pl) fuel) as [[videos|e]|] eqn:Ef;
    try discriminate.
  assert (Hf : (Z.of_nat (List.length videos) <= fetch_count)%Z).
  { apply (FetchVideosFacts.fetch_videos_loop_bounded fetch_count (playlist_items pl)
             (Hplatform pl) fuel 0 [] None videos Ef);
      unfold fetch_count; destruct (PyStr.truthy_opt published_after); simpl; lia. }
  destruct (api_date_filter published_after max_videos videos) as [kept|e] eqn:Ed;
    [|discriminate].
  destruct (collect_results keyword get_transcript 0 kept []) as [out|e] eqn:Ec;
    [|discriminate].
  intros H; inversion H; subst.
  pose proof (ApiSearchExtra.collect_results_length keyword get_transcript kept 0 [] results Ec)
    as Hc.
  destruct (ApiSearchExtra.api_date_filter_shorter _ _ _ _ Ed) as [Hlen Hid].
  unfold fetch_count in Hf. simpl in Hc.
  destruct (PyStr.truthy_opt published_after); lia.
Qed.

Lemma router_search_results_bounded_witness :
  exists results,
    router_search ApiSearchExtra.sample_channel_search ApiSearchExtra.sample_channels
      ApiSearchExtra.sample_items ApiSearchExtra.sample_transcript ApiSearchExtra.sample_str_exn
      (Some "KEY") "https://www.youtube.com/@handle" "keyword" 4 None 5
      = Some (HttpOk results)
    /\ (Z.of_nat (List.length results) <= 4)%Z.
Proof.
  eexists. split; [vm_compute; reflexivity|].
  change 4%Z with (if PyStr.truthy_opt None then 3 * 4 else 4)%Z at 2.
  apply (router_search_results_bounded ApiSearchExtra.sample_channel_search
           ApiSearchExtra.sample_channels ApiSearchExtra.sample_items
           ApiSearchExtra.sample_transcript ApiSearchExtra.sample_str_exn (Some "KEY")
           "https://www.youtube.com/@handle" "keyword" 4 None 5).
  - exact ApiSearchExtra.sample_items_honour.
  - lia.
  - vm_compute. reflexivity.
Defined.

End ApiRouterExtra.

(** ** Dates of the Streamlit application *)

Module StreamlitDatesExtra.
Import Dates Lister StreamlitDates.

Lemma digits_app (n : nat) (acc : Z) (s r : string) (v : Z) (t : string) :
  digits n acc s = Some (v, t) -> digits n acc (s ++ r) = Some (v, t ++ r).
Proof.
  revert acc s. induction n as [|n IH]; intros acc s H.
  - simpl in *. inversion H; subst. reflexivity.
  - destruct s as [|c s']; simpl in *; [discriminate|].
    destruct (digit_value c); [|discriminate]. apply IH. exact H.
Qed.



Lemma digits_nonempty (n : nat) (acc : Z) (s : string) (v : Z) (t : string) :
  digits (S n) acc s = Some (v, t) -> PyStr.truthy s = true.
Proof. destruct s; simpl; [discriminate|reflexivity]. Qed.










Fixpoint years_ok (n : nat) : bool :=
  match n with
  | O => true
  | S n' =>
      years_ok n' &&
      match digits 4 0 (fmt04 (Z.of_nat n')) with
      | Some (v, EmptyString) => Z.eqb v (Z.of_nat n')
      | _ => false
      end
  end.

Lemma years_ok_10000 : years_ok (Z.to_nat 10000) = true.
Proof. vm_compute. reflexivity. Qed.

Lemma years_ok_spec (n : nat) :
  years_ok n = true -> forall k, (k < n)%nat -> digits 4 0 (fmt04 (Z.of_nat k)) = Some (Z.of_nat k, EmptyString).
Proof.
  induction n as [|n IH]; intros H k Hk; [lia|].
  cbn [years_ok] in H. apply andb_prop in H. destruct H as [H1 H2].
  destruct (Nat.eq_dec k n) as [->|Hne]; [|apply IH; auto; lia].
  destruct (digits 4 0 (fmt04 (Z.of_nat n))) as [[v [|c t]]|]; try discriminate.
  apply Z.eqb_eq in H2. subst. reflexivity.
Qed.

Lemma fmt04_digits (y : Z) (r : string) :
  (0 <= y <= 9999)%Z -> digits 4 0 (fmt04 y ++ r) = Some (y, r).
Proof.
  intros Hy. replace y with (Z.of_nat (Z.to_nat y)) by lia.
  apply (digits_app _ _ _ r _ EmptyString).
  apply (years_ok_spec _ years_ok_10000). lia.
Qed.

Lemma expect_dash (x : string) : expect "-" ("-" ++ x) = Some x.
Proof. reflexivity. Qed.

Ltac enum_Z x tac :=
  match goal with
  | H : (?lo <= x <= ?hi)%Z |- _ =>
      let lo' := eval compute in (lo + 1)%Z in
      destruct (Z.eq_dec x lo) as [->|Hne];
      [ clear H; tac
      | assert ((lo' <= x <= hi)%Z) by lia; clear H Hne;
        first [ exfalso; lia | enum_Z x tac ] ]
  end.

Lemma month_of_fmt02 {A} (m : Z) (k : Z -> string -> option A) (r : string) (a : A) :
  (1 <= m <= 12)%Z -> k m r = Some a ->
  first_alt month_alts k (StreamlitTranscripts.fmt02 m ++ r) = Some a.
Proof.
  intros Hm Hk.
  enum_Z m ltac:(vm_compute; rewrite Hk; reflexivity).
Qed.

Lemma day_of_fmt02 {A} (d : Z) (k : Z -> string -> option A) (a : A) :
  (1 <= d <= 31)%Z -> k d EmptyString = Some a ->
  first_alt day_alts k (StreamlitTranscripts.fmt02 d) = Some a.
Proof.
  intros Hd Hk.
  enum_Z d ltac:(vm_compute; rewrite Hk; reflexivity).
Qed.












(** [parse_date] reads back what [str] of a [date] writes: for every date
    that exists with a four-digit year, the string [str(d)] ("YYYY-MM-DD")
    parses to the same datetime as the [date] object [d] itself. *)
Theorem parse_date_str_roundtrip (y m d : Z) :
  (1 <= y <= 9999)%Z -> (1 <= m <= 12)%Z -> (1 <= d <= days_in_month y m)%Z ->
  parse_date (StrInput (date_str y m d)) = parse_date (DateValue y m d).
Proof.
  intros Hy Hm Hd.
  assert (Hdim : (days_in_month y m <= 31)%Z)
    by (unfold days_in_month; repeat destruct (_ =? _)%Z; destruct (is_leap y); simpl; lia).
  pose proof (fmt04_digits y ("-" ++ StreamlitTranscripts.fmt02 m ++ "-" ++ StreamlitTranscripts.fmt02 d)
                ltac:(lia)) as Hyr.
  unfold parse_date, date_str.
  rewrite (digits_nonempty _ _ _ _ _ Hyr). cbn [negb].
  unfold strptime_ymd, strptime_match.
  rewrite Hyr. cbn [bind_opt]. rewrite expect_dash. cbn [bind_opt].
  rewrite (month_of_fmt02 m _ _ (y, m, d, EmptyString) Hm).
  - assert (Hc : ((1 <=? y)%Z && (d <=? days_in_month y m)%Z) = true)
      by (apply andb_true_intro; split; apply Z.leb_le; lia).
    rewrite Hc. reflexivity.
  - rewrite expect_dash. cbn [bind_opt].
    apply (day_of_fmt02 d _ (y, m, d, EmptyString)); [lia|reflexivity].
Qed.

Lemma parse_date_midnight (i : date_input) (dt : datetime) :
  parse_date i = Some dt -> exists z, dt = mk_datetime (z * 86400) true.
Proof.
  unfold parse_date, utc_midnight. destruct i as [|y m d|s|r]; try discriminate.
  - intros H. inversion H. eauto.
  - destruct (negb (PyStr.truthy s)); [discriminate|].
    destruct (strptime_ymd s) as [[[y m] d]|]; [|discriminate].
    intros H. inversion H. eauto.
Qed.

(** The input checks of [process_channel_search] (src/app.py lines
    390-428), once the keyword and the channel are given and both dates
    parse: the search goes on exactly when the start date is not after the
    end date (a one-day range included), and its window then runs from
    midnight UTC of the start date to 23:59:59 UTC of the end date;
    otherwise it stops. *)
Theorem start_search_window (channel keyword : string) (start_in end_in : date_input)
    (s e : datetime) :
  PyStr.truthy keyword = true -> PyStr.truthy channel = true ->
  parse_date start_in = Some s -> parse_date end_in = Some e ->
  match start_search channel start_in end_in keyword with
  | Proceeds yields s' e' =>
      yields = [hourglass_mark ++ " Searching... Please wait."] /\
      s' = s /\ e' = mk_datetime (dt_seconds e + 86399) true /\
      (dt_seconds s <= dt_seconds e)%Z
  | Stopped _ => (dt_seconds e < dt_seconds s)%Z
  end.
Proof.
  intros Hk Hc Hs He.
  destruct (parse_date_midnight _ _ Hs) as [zs ->].
  destruct (parse_date_midnight _ _ He) as [ze ->].
  unfold start_search. rewrite Hk, Hc. cbn [negb]. rewrite Hs, He.
  unfold end_of_day. cbn [dt_seconds]. rewrite Z.div_mul by lia.
  destruct (ze * 86400 + 86399 <? zs * 86400)%Z eqn:Hlt.
  - apply Z.ltb_lt in Hlt. lia.
  - apply Z.ltb_ge in Hlt. repeat split; lia.
Qed.

(** The page's date filter, for videos and bounds that are all aware. *)
Lemma page_date_filter_spec (s e : option datetime) (details : list video_detail)
    (kept : list (string * string * datetime)) (warnings : list string) :
  (forall a, s = Some a -> dt_aware a = true) ->
  (forall b, e = Some b -> dt_aware b = true) ->
  Forall (fun '(_, pub, _) => forall p, parse_published pub = Some p -> dt_aware p = true)
    details ->
  exists kept', snd (page_date_filter s e details kept warnings) = Ret kept' /\
    forall vid title p, In (vid, title, p) kept' <->
      In (vid, title, p) kept \/
      exists pub, In (vid, pub, title) details /\ parse_published pub = Some p /\
        (forall a, s = Some a -> (dt_seconds a <= dt_seconds p)%Z) /\
        (forall b, e = Some b -> (dt_seconds p <= dt_seconds b)%Z).
Proof.
  intros Hs He Hall. revert kept warnings.
  induction details as [|[[vid pub] title] rest IH]; intros kept warnings.
  - exists kept. split; [reflexivity|]. intros v t p. simpl.
    split; [auto|intros [H|(pub & [] & _)]; exact H].
  - apply Forall_cons_iff in Hall. destruct Hall as [Hhd Hrest].
    specialize (IH Hrest).
    cbn [page_date_filter].
    destruct (parse_published pub) as [p|] eqn:Hp.
    + assert (Hpa : dt_aware p = true) by (apply Hhd; reflexivity).
      assert (Hlo : (match s with None => Ret true | Some a => dt_le a p end)
                    = Ret (match s with None => true | Some a => (dt_seconds a <=? dt_seconds p)%Z end)).
      { destruct s as [a|]; [|reflexivity]. unfold dt_le.
        rewrite (Hs a eq_refl), Hpa. reflexivity. }
      assert (Hhi : (match e with None => Ret true | Some b => dt_le p b end)
                    = Ret (match e with None => true | Some b => (dt_seconds p <=? dt_seconds b)%Z end)).
      { destruct e as [b|]; [|reflexivity]. unfold dt_le.
        rewrite (He b eq_refl), Hpa. reflexivity. }
      rewrite Hlo, Hhi.
      set (lo := match s with None => true | Some a => (dt_seconds a <=? dt_seconds p)%Z end) in *.
      set (hi := match e with None => true | Some b => (dt_seconds p <=? dt_seconds b)%Z end) in *.
      assert (Hlo' : lo = true <-> forall a, s = Some a -> (dt_seconds a <= dt_seconds p)%Z).
      { subst lo. destruct s as [a|]; [|split; [discriminate|reflexivity]].
        rewrite Z.leb_le. split; [intros ? ? E; inversion E; subst; assumption|auto]. }
      assert (Hhi' : hi = true <-> forall b, e = Some b -> (dt_seconds p <= dt_seconds b)%Z).
      { subst hi. destruct e as [b|]; [|split; [discriminate|reflexivity]].
        rewrite Z.leb_le. split; [intros ? ? E; inversion E; subst; assumption|auto]. }
      destruct (andb lo hi) eqn:Hboth.
      * apply andb_prop in Hboth. destruct Hboth as [Hl Hh]. rewrite Hl, Hh.
        destruct (IH (kept ++ [(vid, title, p)])%list warnings) as [k' [Hk' Hin]].
        exists k'. split; [exact Hk'|]. intros v t q. rewrite Hin, in_app_iff.
        simpl. split.
        -- intros [[H|[H|[]]]|(pub' & H1 & H2 & H3 & H4)]; auto.
           ++ right. inversion H; subst. exists pub. split; [left; reflexivity|].
              split; [exact Hp|]. split; [apply Hlo'|apply Hhi']; assumption.
           ++ right. exists pub'. auto.
        -- intros [H|(pub' & [H1|H1] & H2 & H3 & H4)]; auto.
           ++ inversion H1; subst. rewrite Hp in H2. inversion H2; subst. auto.
           ++ right. exists pub'. auto.
      * assert (Hnot : ~ ((forall a, s = Some a -> (dt_seconds a <= dt_seconds p)%Z) /\
                          (forall b, e = Some b -> (dt_seconds p <= dt_seconds b)%Z))).
        { rewrite <- Hlo', <- Hhi'. intros [H1 H2]. rewrite H1, H2 in Hboth. discriminate. }
        assert (Hcont : exists k', snd (page_date_filter s e rest kept warnings) = Ret k' /\
                  forall v t q, In (v, t, q) k' <->
                    In (v, t, q) kept \/
                    exists pub', In (v, pub', t) ((vid, pub, title) :: rest) /\
                      parse_published pub' = Some q /\
                      (forall a, s = Some a -> (dt_seconds a <= dt_seconds q)%Z) /\
                      (forall b, e = Some b -> (dt_seconds q <= dt_seconds b)%Z)).
        { destruct (IH kept warnings) as [k' [Hk' Hin]].
          exists k'. split; [exact Hk'|]. intros v t q. rewrite Hin. simpl. split.
          - intros [H|(pub' & H1 & H2 & H3 & H4)]; auto. right. exists pub'. auto.
          - intros [H|(pub' & [H1|H1] & H2 & H3 & H4)]; auto.
            + inversion H1; subst. rewrite Hp in H2. inversion H2; subst.
              exfalso. apply Hnot. auto.
            + right. exists pub'. auto. }
        destruct lo; [destruct hi; [discriminate|]|]; exact Hcont.
    + destruct (IH kept (app warnings ["Could not parse date for video " ++ vid ++ ": " ++ pub]))
        as [k' [Hk' Hin]].
      exists k'. split; [exact Hk'|]. intros v t q. rewrite Hin. simpl. split.
      * intros [H|(pub' & H1 & H2 & H3 & H4)]; auto. right. exists pub'. auto.
      * intros [H|(pub' & [H1|H1] & H2 & H3 & H4)]; auto.
        -- inversion H1; subst. rewrite Hp in H2. discriminate.
        -- right. exists pub'. auto.
Qed.

(** The date filter of the Streamlit page (src/app.py lines 559-591), on
    videos whose publish dates carry a UTC offset: it raises nothing, and
    it keeps exactly the videos whose publish date parses and lies between
    the bound [parse_date] gives for the start date and the one it gives
    for the end date, an absent date setting no bound.  Both bounds are
    midnight UTC, so a video published on the end date after 00:00:00 UTC
    is not kept. *)
Theorem page_date_filter_window (start_in end_in : date_input) (details : list video_detail) :
  Forall (fun '(_, pub, _) => forall p, parse_published pub = Some p -> dt_aware p = true)
    details ->
  exists kept, snd (page_date_filter (parse_date start_in) (parse_date end_in) details [] []) = Ret kept /\
    forall vid title p, In (vid, title, p) kept <->
      exists pub, In (vid, pub, title) details /\ parse_published pub = Some p /\
        (forall a, parse_date start_in = Some a -> (dt_seconds a <= dt_seconds p)%Z) /\
        (forall b, parse_date end_in = Some b -> (dt_seconds p <= dt_seconds b)%Z).
Proof.
  intros Hall.
  assert (Haware : forall i a, parse_date i = Some a -> dt_aware a = true).
  { intros i a H. destruct (parse_date_midnight _ _ H) as [z ->]. reflexivity. }
  destruct (page_date_filter_spec (parse_date start_in) (parse_date end_in) details [] []
              (Haware start_in) (Haware end_in) Hall) as [kept [Hk Hin]].
  exists kept. split; [exact Hk|]. intros vid title p. rewrite Hin. simpl.
  split; [intros [[]|H]; exact H|auto].
Qed.


Lemma parse_date_str_roundtrip_witness :
  (1 <= 2024 <= 9999)%Z /\ (1 <= 2 <= 12)%Z /\ (1 <= 29 <= days_in_month 2024 2)%Z /\
  parse_date (StrInput (date_str 2024 2 29)) = parse_date (DateValue 2024 2 29).
Proof.
  split; [lia|]. split; [lia|]. split; [vm_compute; split; discriminate|].
  apply parse_date_str_roundtrip; [lia|lia|vm_compute; split; discriminate].
Defined.

Lemma start_search_window_witness :
  match start_search "@handle" (DateValue 2024 3 10) (StrInput "2024-03-10") "python" with
  | Proceeds yields s' e' =>
      yields = [hourglass_mark ++ " Searching... Please wait."] /\
      s' = utc_midnight 2024 3 10 /\
      e' = mk_datetime (dt_seconds (utc_midnight 2024 3 10) + 86399) true /\
      (dt_seconds (utc_midnight 2024 3 10) <= dt_seconds (utc_midnight 2024 3 10))%Z
  | Stopped _ => (dt_seconds (utc_midnight 2024 3 10) < dt_seconds (utc_midnight 2024 3 10))%Z
  end.
Proof.
  apply (start_search_window "@handle" "python" (DateValue 2024 3 10) (StrInput "2024-03-10"));
    vm_compute; reflexivity.
Defined.

Definition late_and_midnight : list video_detail :=
  [("late", "2024-03-10T12:00:00Z", "Published at noon");
   ("early", "2024-03-10T00:00:00Z", "Published at midnight")].

Lemma page_date_filter_window_witness :
  Forall (fun '(_, pub, _) => forall p, parse_published pub = Some p -> dt_aware p = true)
    late_and_midnight /\
  snd (page_date_filter (parse_date NoInput) (parse_date (DateValue 2024 3 10)) late_and_midnight [] [])
    = Ret [("early", "Published at midnight", utc_midnight 2024 3 10)] /\
  exists kept, snd (page_date_filter (parse_date NoInput) (parse_date (DateValue 2024 3 10))
                      late_and_midnight [] []) = Ret kept /\
    forall vid title p, In (vid, title, p) kept <->
      exists pub, In (vid, pub, title) late_and_midnight /\ parse_published pub = Some p /\
        (forall a, parse_date NoInput = Some a -> (dt_seconds a <= dt_seconds p)%Z) /\
        (forall b, parse_date (DateValue 2024 3 10) = Some b -> (dt_seconds p <= dt_seconds b)%Z).
Proof.
  assert (Hall : Forall (fun '(_, pub, _) => forall p, parse_published pub = Some p -> dt_aware p = true)
                   late_and_midnight).
  { constructor; [|constructor; [|constructor]]; intros p Hp; vm_compute in Hp;
      inversion Hp; reflexivity. }
  split; [exact Hall|]. split; [vm_compute; reflexivity|].
  exact (page_date_filter_window NoInput (DateValue 2024 3 10) late_and_midnight Hall).
Defined.

End StreamlitDatesExtra.
